(** * Utils::Unarchiver (src/libs/utils/unarchiver.cpp)

    A shallow embedding of the archive-extraction orchestrator: the tool
    catalog [sTools], the resolver [sourceAndCommand], the command builder
    [unarchiveCommand] and the executor [start] with the three callbacks it
    connects to the child process.

    Conventions.
    - [QString] is [string]; [QByteArray] is [list byte].
    - [FilePath] is the string of a local path with forward slashes; the
      empty string is the empty [FilePath] ([isEmpty]).
    - [CommandLine] is an executable and the list of tokens that
      [splitArguments()] yields.
    - [Tr::tr] is the identity (the untranslated source text).
    - What the host decides (the operating system, the registry, the
      executable search, the MIME database) is a field of [Host]; what the
      file system holds is a [World]. *)

From Stdlib Require Import ZArith Ascii String.
From Stdlib.Strings Require Import Byte.
From stdpp Require Import base strings list gmap.

Local Open Scope string_scope.
Local Open Scope list_scope.

(** ** Strings *)

Module QStr.

(** [s.startsWith(p)] *)
Fixpoint startsWith (p s : string) : bool :=
  match p, s with
  | EmptyString, _ => true
  | String a p', String b s' => if Ascii.eqb a b then startsWith p' s' else false
  | String _ _, EmptyString => false
  end.

(** [s.contains(p)] *)
Fixpoint contains (p s : string) : bool :=
  startsWith p s ||
  match s with
  | EmptyString => false
  | String _ s' => contains p s'
  end.

(** The scan of [QString::replace(before, after)] for a non-empty
    [before]: matches are found left to right, a match is replaced by
    [after] and the scan resumes behind it (the replacement is not
    scanned again).  [skip] counts the characters of the current match
    still to be dropped. *)
Fixpoint replace_from (skip : nat) (before after s : string) : string :=
  match s with
  | EmptyString => EmptyString
  | String c s' =>
      match skip with
      | S k => replace_from k before after s'
      | O =>
          if startsWith before s
          then after +:+ replace_from (String.length before - 1) before after s'
          else String c (replace_from 0 before after s')
      end
  end.

(** With an empty [before], Qt inserts [after] in front of every
    character and at the end. *)
Fixpoint intersperse_all (after s : string) : string :=
  match s with
  | EmptyString => after
  | String c s' => after +:+ String c (intersperse_all after s')
  end.

(** [s.replace(before, after)] *)
Definition replace (before after s : string) : string :=
  match before with
  | EmptyString => intersperse_all after s
  | String _ _ => replace_from 0 before after s
  end.

(** [list.join(sep)] *)
Fixpoint join (sep : string) (l : list string) : string :=
  match l with
  | [] => ""
  | [x] => x
  | x :: rest => x +:+ sep +:+ join sep rest
  end.

(** The characters of [s] behind its last ['/'] ([acc] holds the
    characters read since the last one). *)
Fixpoint afterLastSlash (acc s : string) : string :=
  match s with
  | EmptyString => acc
  | String c s' =>
      if Ascii.eqb c "/"%char then afterLastSlash "" s'
      else afterLastSlash (acc +:+ String c "") s'
  end.

(** The strings of [names] occur in [s] one behind the other. *)
Fixpoint occurInOrder (names : list string) (s : string) : Prop :=
  match names with
  | [] => True
  | n :: rest => exists pre post, s = pre +:+ n +:+ post /\ occurInOrder rest post
  end.

(** [s.endsWith('/')] *)
Fixpoint endsWithSlash (s : string) : bool :=
  match s with
  | EmptyString => false
  | String c EmptyString => Ascii.eqb c "/"%char
  | String _ s' => endsWithSlash s'
  end.

(** No ['/'] occurs in [s]. *)
Fixpoint slashFree (s : string) : bool :=
  match s with
  | EmptyString => true
  | String c s' => negb (Ascii.eqb c "/"%char) && slashFree s'
  end.

(** No ['%'] occurs in [s]. *)
Fixpoint percentFree (s : string) : bool :=
  match s with
  | EmptyString => true
  | String c s' => negb (Ascii.eqb c "%"%char) && percentFree s'
  end.

End QStr.

(** ** Data model *)

Definition FilePath := string.

Definition isEmpty (fp : FilePath) : bool := String.eqb fp "".

(** [FilePath::path()] of a local path. *)
Definition path (fp : FilePath) : string := fp.

(** [FilePath::fileName()] *)
Definition fileName (fp : FilePath) : string := QStr.afterLastSlash "" fp.

(** [dir / name] ([FilePath::pathAppended]): an empty part leaves the
    other one; otherwise the two are joined by exactly one ['/'], whether
    or not [dir] ends and [name] starts with one. *)
Definition pathAppended (dir : FilePath) (name : string) : FilePath :=
  if String.eqb name "" then dir
  else if String.eqb dir "" then name
  else
    (if QStr.endsWithSlash dir then dir else dir +:+ "/")
    +:+ match name with
        | String c rest => if Ascii.eqb c "/"%char then rest else name
        | EmptyString => name
        end.

Record CommandLine := mkCommandLine {
  executable : FilePath;
  splitArguments : list string
}.

Definition setExecutable (c : CommandLine) (exe : FilePath) : CommandLine :=
  {| executable := exe; splitArguments := splitArguments c |}.

Record Tool := mkTool {
  command : CommandLine;
  supportedMimeTypes : list string;
  additionalSearchDirs : list FilePath
}.

(** Modelled from the spec: the MIME collaborator (mimeutils.h is not part
    of the sources).  A detected type carries its name and the names of all
    the types it inherits from; [inherits] is reflexive, as the spec says
    ("a type inherits itself"). *)
Record MimeType := mkMimeType {
  mimeName : string;
  mimeAncestors : list string
}.

Definition inherits (mimeType : MimeType) (mt : string) : bool :=
  String.eqb (mimeName mimeType) mt
  || existsb (String.eqb mt) (mimeAncestors mimeType).

(** What the host decides. *)
Record Host := mkHost {
  (** [HostOsInfo::isWindowsHost()], also the compile-time [Q_OS_WIN] *)
  isWindowsHost : bool;
  (** [QSettings(key, Registry64Format).value(name)] as a [FilePath] *)
  registry64 : string -> string -> FilePath;
  (** [QSettings(key, Registry32Format).value(name)] as a [FilePath] *)
  registry32 : string -> string -> FilePath;
  (** [FilePath::withExecutableSuffix()] *)
  withExecutableSuffix : FilePath -> FilePath;
  (** [FilePath::searchInPath(additionalDirs)]: empty when nothing is found *)
  searchInPath : FilePath -> list FilePath -> FilePath;
  (** [FilePath::toUserOutput()] *)
  toUserOutput : FilePath -> string;
  (** [mimeTypeForFile(fp)] *)
  mimeTypeForFile : FilePath -> MimeType
}.

(** ** Tool catalog and resolver *)

Section Resolver.

Context (h : Host).

Definition additionalInstallDirs (registryKey valueName : string) : list FilePath :=
  if isWindowsHost h
  then [registry64 h registryKey valueName; registry32 h registryKey valueName]
  else [].

Definition additionalCMakeDirs : list FilePath :=
  additionalInstallDirs "HKEY_LOCAL_MACHINE\SOFTWARE\Kitware\CMake" "InstallDir".

(** The [CommandLine::Raw] entry of the Windows host is held as the
    tokens its argument string splits into. *)
Definition powershellTool : Tool :=
  mkTool (mkCommandLine "powershell"
            ["-command"; "Expand-Archive"; "-Force"; "'%{src}'"; "'%{dest}'"])
         ["application/zip"] [].

Definition gzipTool : Tool :=
  mkTool (mkCommandLine "gzip" ["-d"; "%{src}"; "-c"]) ["application/gzip"] [].

(** The entries in front of the last one, in the order the source
    appends them. *)
Definition archiveTools : list Tool :=
  (if isWindowsHost h then [powershellTool] else []) ++
  [ mkTool (mkCommandLine "unzip" ["-o"; "%{src}"; "-d"; "%{dest}"])
           ["application/zip"] [];
    mkTool (mkCommandLine "7z" ["x"; "-o%{dest}"; "-y"; "-bb"; "%{src}"])
           ["application/zip"; "application/x-7z-compressed"]
           (additionalInstallDirs "HKEY_CURRENT_USER\Software\7-Zip" "Path");
    mkTool (mkCommandLine "cmake" ["-E"; "tar"; "xvf"; "%{src}"])
           ["application/zip"; "application/x-tar"; "application/x-7z-compressed"]
           additionalCMakeDirs;
    mkTool (mkCommandLine "cmake" ["-E"; "tar"; "xvzf"; "%{src}"])
           ["application/x-compressed-tar"] additionalCMakeDirs;
    mkTool (mkCommandLine "cmake" ["-E"; "tar"; "xvJf"; "%{src}"])
           ["application/x-xz-compressed-tar"] additionalCMakeDirs;
    mkTool (mkCommandLine "cmake" ["-E"; "tar"; "xvjf"; "%{src}"])
           ["application/x-bzip-compressed-tar"] additionalCMakeDirs;
    mkTool (mkCommandLine "tar" ["xvf"; "%{src}"])
           ["application/zip"; "application/x-tar"; "application/x-7z-compressed"] [];
    mkTool (mkCommandLine "tar" ["xvzf"; "%{src}"]) ["application/x-compressed-tar"] [];
    mkTool (mkCommandLine "tar" ["xvJf"; "%{src}"]) ["application/x-xz-compressed-tar"] [];
    mkTool (mkCommandLine "tar" ["xvjf"; "%{src}"]) ["application/x-bzip-compressed-tar"] [] ].

(** The catalog: gzip is kept at the end. *)
Definition sTools : list Tool := archiveTools ++ [gzipTool].

(** The predicate of [Utils::filtered] in [toolsForMimeType]. *)
Definition supportsMimeType (mimeType : MimeType) (tool : Tool) : bool :=
  existsb (fun mt => inherits mimeType mt) (supportedMimeTypes tool).

Definition toolsForMimeType (mimeType : MimeType) : list Tool :=
  List.filter (supportsMimeType mimeType) sTools.

Definition toolsForFilePath (fp : FilePath) : list Tool :=
  toolsForMimeType (mimeTypeForFile h fp).

(** The executable that [resolveTool] looks up. *)
Definition foundExecutable (tool : Tool) : FilePath :=
  searchInPath h (withExecutableSuffix h (executable (command tool)))
               (additionalSearchDirs tool).

Definition resolveTool (tool : Tool) : option Tool :=
  let executable := foundExecutable tool in
  let resolvedTool :=
    {| command := setExecutable (command tool) executable;
       supportedMimeTypes := supportedMimeTypes tool;
       additionalSearchDirs := additionalSearchDirs tool |} in
  if isEmpty executable then None else Some resolvedTool.

Record SourceAndCommand := mkSourceAndCommand {
  m_sourceFile : FilePath;
  m_commandTemplate : CommandLine
}.

(** The [for] loop of [sourceAndCommand]: the first tool that resolves. *)
Fixpoint firstResolved (tools : list Tool) : option Tool :=
  match tools with
  | [] => None
  | tool :: rest =>
      match resolveTool tool with
      | Some resolvedTool => Some resolvedTool
      | None => firstResolved rest
      end
  end.

Definition msgUnsupportedFormat : string := "File format not supported.".

(** ["Could not find any unarchiving executable in PATH (%1)."] with
    [%1] filled in. *)
Definition msgNoExecutableFound (execs : list string) : string :=
  "Could not find any unarchiving executable in PATH ("
    +:+ QStr.join ", " execs +:+ ").".

(** The [execs] of [sourceAndCommand]: the display names of the
    executables of the candidates. *)
Definition attemptedExecs (tools : list Tool) : list string :=
  List.map (fun tool => toUserOutput h (executable (command tool))) tools.

(** [expected_str<SourceAndCommand>]: [inl] is the error string. *)
Definition sourceAndCommand (sourceFile : FilePath) : string + SourceAndCommand :=
  let tools := toolsForFilePath sourceFile in
  match tools with
  | [] => inl msgUnsupportedFormat
  | _ :: _ =>
      match firstResolved tools with
      | Some resolvedTool => inr (mkSourceAndCommand sourceFile (command resolvedTool))
      | None =>
          let execs := attemptedExecs tools in
          inl (msgNoExecutableFound execs)
      end
  end.

End Resolver.

Arguments m_sourceFile : clear implicits.
Arguments m_commandTemplate : clear implicits.

(** ** Command builder *)

Definition renderArg (sourceFile destDir : FilePath) (arg : string) : string :=
  QStr.replace "%{dest}" (path destDir) (QStr.replace "%{src}" (path sourceFile) arg).

Definition unarchiveCommand (commandTemplate : CommandLine)
    (sourceFile destDir : FilePath) : CommandLine :=
  let args := List.map (renderArg sourceFile destDir) (splitArguments commandTemplate) in
  mkCommandLine (executable commandTemplate) args.

(** ** File system *)

(** The directory part and the last component of a path: [None] as
    directory says that the path has no ['/']. *)
Fixpoint splitPath (s : string) : option string * string :=
  match s with
  | EmptyString => (None, EmptyString)
  | String c s' =>
      let '(d, n) := splitPath s' in
      match d with
      | Some d' => (Some (String c d'), n)
      | None =>
          if Ascii.eqb c "/"%char then (Some EmptyString, n)
          else (None, String c n)
      end
  end.

Definition parentDir (p : FilePath) : FilePath :=
  match fst (splitPath p) with
  | Some d => d
  | None => ""
  end.

(** The part of the file system the executor touches.
    - [dirs]: the directories that exist and are writable;
    - [creatable]: the directories that can be created (as writable);
    - [unopenable]: the paths that cannot be opened for writing although
      their directory is writable;
    - [files]: the regular files and their contents;
    - [deviceWrite p cur data]: what [QFile::write(data)] returns on the
      file [p] holding [cur] (the count of bytes taken, or [-1]). *)
Record World := mkWorld {
  dirs : gset string;
  creatable : gset string;
  unopenable : gset string;
  files : gmap string (list byte);
  deviceWrite : string -> list byte -> list byte -> Z
}.

Definition setDirs (w : World) (d : gset string) : World :=
  mkWorld d (creatable w) (unopenable w) (files w) (deviceWrite w).

Definition setFiles (w : World) (f : gmap string (list byte)) : World :=
  mkWorld (dirs w) (creatable w) (unopenable w) f (deviceWrite w).

(** [FilePath::ensureWritableDir()]: the verdict and the world behind it. *)
Definition ensureWritableDir (d : FilePath) (w : World) : bool * World :=
  if decide (d ∈ dirs w) then (true, w)
  else if decide (d ∈ creatable w) then (true, setDirs w ({[d]} ∪ dirs w))
  else (false, w).

Record QFile := mkQFile {
  qfileName : string;
  isOpen : bool
}.

(** [QFile::open(QIODevice::WriteOnly)] succeeds when the directory of
    the path exists and is writable, and the path is neither a directory
    nor listed as unopenable; it creates or truncates the file.  A file
    that exists in a directory without write permission, which can be
    opened all the same, is outside the model: what is concluded from a
    failed open is stated for an output file that does not exist yet. *)
Definition canOpenWriteOnly (p : string) (w : World) : bool :=
  bool_decide (parentDir p ∈ dirs w)
  && negb (bool_decide (p ∈ dirs w))
  && negb (bool_decide (p ∈ unopenable w)).

Definition qfileOpen (f : QFile) (w : World) : bool * QFile * World :=
  if canOpenWriteOnly (qfileName f) w
  then (true, mkQFile (qfileName f) true, setFiles w (<[qfileName f := []]> (files w)))
  else (false, f, w).

(** [QFile::write(data)]: the bytes the device takes are appended. *)
Definition qfileWrite (f : QFile) (data : list byte) (w : World) : Z * World :=
  if isOpen f then
    let cur := default [] (files w !! qfileName f) in
    let n := deviceWrite w (qfileName f) cur data in
    (n, setFiles w (<[qfileName f := cur ++ take (Z.to_nat n) data]> (files w)))
  else ((-1)%Z, w).

Definition qfileClose (f : QFile) : QFile := mkQFile (qfileName f) false.

(** [QFile::remove()] on the file the executor created itself: the file
    is gone afterwards. *)
Definition qfileRemove (f : QFile) (w : World) : World :=
  setFiles w (delete (qfileName f) (files w)).

(** ** Executor *)

Inductive DoneResult := Success | Error.

Definition toDoneResult (success : bool) : DoneResult :=
  if success then Success else Error.

(** [Utils::ProcessResult] *)
Inductive ProcessResult :=
| FinishedWithSuccess
| FinishedWithError
| TerminatedAbnormally
| StartFailed
| Hang.

Definition isFinishedWithSuccess (r : ProcessResult) : bool :=
  match r with FinishedWithSuccess => true | _ => false end.

(** The signals of [Unarchiver]. *)
Inductive Signal :=
| outputReceived (text : string)
| done (result : DoneResult).

(** What a call leaves behind, in order. *)
Inductive Effect :=
| Emit (sig : Signal)
| AssertFailed (condition : string)
| Spawn (cmd : CommandLine) (workingDirectory : FilePath).

(** The callbacks connected to the process: those of the gzip branch
    share [outputFile]. *)
Inductive Connections :=
| GzipConnections (outputFile : QFile)
| ArchiveConnections.

Record Process := mkProcess {
  procCommand : CommandLine;
  procWorkingDirectory : FilePath;
  mergedChannels : bool;
  connections : Connections;
  procResult : option ProcessResult
}.

Record Unarchiver := mkUnarchiver {
  m_sourceAndCommand : option SourceAndCommand;
  m_destDir : FilePath;
  m_gzipFileDestName : string;
  m_process : option Process
}.

Definition setProcess (u : Unarchiver) (p : Process) : Unarchiver :=
  mkUnarchiver (m_sourceAndCommand u) (m_destDir u) (m_gzipFileDestName u) (Some p).

Definition newline : string := String (ascii_of_nat 10) EmptyString.
Definition dquote : string := String (ascii_of_nat 34) EmptyString.

Section Executor.

Context (h : Host).

(** [CommandLine::toUserOutput()], without the quoting of arguments. *)
Definition commandToUserOutput (c : CommandLine) : string :=
  QStr.join " " (toUserOutput h (executable c) :: splitArguments c).

(** The text of ["Running %1\nin \"%2\".\n\n"]. *)
Definition msgRunning (c : CommandLine) (destDir : FilePath) : string :=
  "Running " +:+ commandToUserOutput c +:+ newline +:+ "in " +:+ dquote
    +:+ toUserOutput h destDir +:+ dquote +:+ "." +:+ newline +:+ newline.

Definition failWith (u : Unarchiver) (w : World) (text : string)
    : Unarchiver * World * list Effect :=
  (u, w, [Emit (outputReceived text); Emit (done Error)]).

Definition start (u : Unarchiver) (w : World) : Unarchiver * World * list Effect :=
  match m_process u with
  | Some _ => (u, w, [AssertFailed "!m_process"; Emit (done Error)])
  | None =>
      match m_sourceAndCommand u with
      | None => failWith u w "No source file set."
      | Some sc =>
          if isEmpty (m_destDir u) then failWith u w "No destination directory set."
          else
            let command :=
              unarchiveCommand (m_commandTemplate sc) (m_sourceFile sc) (m_destDir u) in
            let w1 := snd (ensureWritableDir (m_destDir u) w) in
            if String.eqb (fileName (executable command)) "gzip" then
              let outputFile := mkQFile (pathAppended (m_destDir u) (m_gzipFileDestName u)) false in
              let '(opened, outputFile', w2) := qfileOpen outputFile w1 in
              if negb opened then failWith u w2 "Failed to open output file."
              else
                let p := mkProcess command (m_destDir u) false
                                   (GzipConnections outputFile') None in
                (setProcess u p, w2,
                 [Emit (outputReceived (msgRunning command (m_destDir u)));
                  Spawn command (m_destDir u)])
            else
              let p := mkProcess command (m_destDir u) true ArchiveConnections None in
              (setProcess u p, w1,
               [Emit (outputReceived (msgRunning command (m_destDir u)));
                Spawn command (m_destDir u)])
      end
  end.

(** What the process abstraction delivers to the connected callbacks. *)
Inductive ProcessEvent :=
| readyReadStandardOutput (data : list byte)
| readyReadStandardError (data : list byte)
| processDone (result : ProcessResult).

Definition withConnections (p : Process) (c : Connections) : Process :=
  mkProcess (procCommand p) (procWorkingDirectory p) (mergedChannels p) c (procResult p).

Definition withResult (p : Process) (r : ProcessResult) : Process :=
  mkProcess (procCommand p) (procWorkingDirectory p) (mergedChannels p)
            (connections p) (Some r).

(** The lambda connected to [Process::readyReadStandardOutput]. *)
Definition onReadyReadStandardOutput (p : Process) (data : list byte) (w : World)
    : Process * World * list Effect :=
  match connections p with
  | GzipConnections outputFile =>
      let '(n, w') := qfileWrite outputFile data w in
      if negb (Z.eqb n (Z.of_nat (length data)))
      then (p, w', [Emit (outputReceived "Failed to write output file.");
                    Emit (done Error)])
      else (p, w', [])
  | ArchiveConnections =>
      (p, w, [Emit (outputReceived (string_of_list_byte data))])
  end.

(** The lambda connected to [Process::readyReadStandardError]; the
    archive branch connects none (its channels are merged). *)
Definition onReadyReadStandardError (p : Process) (data : list byte) (w : World)
    : Process * World * list Effect :=
  match connections p with
  | GzipConnections _ => (p, w, [Emit (outputReceived (string_of_list_byte data))])
  | ArchiveConnections => (p, w, [])
  end.

(** The lambda connected to [Process::done]. *)
Definition onDone (p : Process) (w : World) : Process * World * list Effect :=
  let success :=
    match procResult p with
    | Some r => isFinishedWithSuccess r
    | None => false
    end in
  match connections p with
  | GzipConnections outputFile =>
      let closed := qfileClose outputFile in
      let p' := withConnections p (GzipConnections closed) in
      if negb success
      then (p', qfileRemove closed w,
            [Emit (outputReceived "Command failed."); Emit (done (toDoneResult success))])
      else (p', w, [Emit (done (toDoneResult success))])
  | ArchiveConnections =>
      if negb success
      then (p, w, [Emit (outputReceived "Command failed."); Emit (done (toDoneResult success))])
      else (p, w, [Emit (done (toDoneResult success))])
  end.

(** One event of the child process reaching the [Unarchiver]. *)
Definition deliver (u : Unarchiver) (w : World) (ev : ProcessEvent)
    : Unarchiver * World * list Effect :=
  match m_process u with
  | None => (u, w, [])
  | Some p =>
      let '(p', w', out) :=
        match ev with
        | readyReadStandardOutput data => onReadyReadStandardOutput p data w
        | readyReadStandardError data => onReadyReadStandardError p data w
        | processDone r => onDone (withResult p r) w
        end in
      (setProcess u p', w', out)
  end.

Fixpoint deliverAll (u : Unarchiver) (w : World) (evs : list ProcessEvent)
    : Unarchiver * World * list Effect :=
  match evs with
  | [] => (u, w, [])
  | ev :: rest =>
      let '(u1, w1, out1) := deliver u w ev in
      let '(u2, w2, out2) := deliverAll u1 w1 rest in
      (u2, w2, out1 ++ out2)
  end.

Definition isSpawn (e : Effect) : bool :=
  match e with Spawn _ _ => true | _ => false end.

Definition isDone (e : Effect) : bool :=
  match e with Emit (done _) => true | _ => false end.

Definition isOutput (e : Effect) : bool :=
  match e with Emit (outputReceived _) => true | _ => false end.

(** One [start()] call and the events of the process it spawned, if it
    spawned one. *)
Definition extraction (u : Unarchiver) (w : World) (evs : list ProcessEvent)
    : Unarchiver * World * list Effect :=
  let '(u1, w1, out1) := start u w in
  if existsb isSpawn out1 then
    let '(u2, w2, out2) := deliverAll u1 w1 evs in
    (u2, w2, out1 ++ out2)
  else (u1, w1, out1).

(** The events of one process: output, then the one [done]. *)
Definition isProcessDone (ev : ProcessEvent) : bool :=
  match ev with processDone _ => true | _ => false end.

Definition lifeOf (outs : list ProcessEvent) (r : ProcessResult) : list ProcessEvent :=
  outs ++ [processDone r].

(** The bytes the process wrote to its standard output. *)
Fixpoint stdoutOf (evs : list ProcessEvent) : list byte :=
  match evs with
  | [] => []
  | readyReadStandardOutput data :: rest => data ++ stdoutOf rest
  | _ :: rest => stdoutOf rest
  end.

(** At most one terminal event, and no output behind it. *)
Fixpoint outputThenDone (out : list Effect) : bool :=
  match out with
  | [] => true
  | e :: rest =>
      if isDone e then forallb (fun e' => negb (isDone e') && negb (isOutput e')) rest
      else outputThenDone rest
  end.

Definition countDone (out : list Effect) : nat :=
  length (List.filter isDone out).

End Executor.

(** The three parts of what a call returns. *)
Definition selfOf (r : Unarchiver * World * list Effect) : Unarchiver := fst (fst r).
Definition worldOf (r : Unarchiver * World * list Effect) : World := snd (fst r).
Definition effectsOf (r : Unarchiver * World * list Effect) : list Effect := snd r.

(** The output file shared by the callbacks of the gzip branch. *)
Definition gzipFileOf (u : Unarchiver) : option QFile :=
  match m_process u with
  | Some p =>
      match connections p with
      | GzipConnections outputFile => Some outputFile
      | ArchiveConnections => None
      end
  | None => None
  end.

(** The path of the output file of the gzip branch. *)
Definition outputPath (u : Unarchiver) : FilePath :=
  pathAppended (m_destDir u) (m_gzipFileDestName u).

(** Every write to [p] takes the whole chunk. *)
Definition takesAll (w : World) (p : FilePath) : Prop :=
  forall cur data, deviceWrite w p cur data = Z.of_nat (length data).

(** ** Templates as the spec describes them

    An argument token of a command template is literal text with
    placeholders in it.  [templateText] is the token the catalog holds,
    [instantiate] is what the spec asks of rendering: every placeholder
    replaced by its path, the literal text kept. *)

Inductive Piece :=
| Lit (text : string)
| Src
| Dest.

Definition pieceText (p : Piece) : string :=
  match p with
  | Lit text => text
  | Src => "%{src}"
  | Dest => "%{dest}"
  end.

Fixpoint templateText (ps : list Piece) : string :=
  match ps with
  | [] => ""
  | p :: rest => pieceText p +:+ templateText rest
  end.

Definition pieceValue (src dest : string) (p : Piece) : string :=
  match p with
  | Lit text => text
  | Src => src
  | Dest => dest
  end.

Fixpoint instantiate (src dest : string) (ps : list Piece) : string :=
  match ps with
  | [] => ""
  | p :: rest => pieceValue src dest p +:+ instantiate src dest rest
  end.

(** The token after the first of the two replacements. *)
Fixpoint srcReplaced (src : string) (ps : list Piece) : string :=
  match ps with
  | [] => ""
  | p :: rest => pieceValue src "%{dest}" p +:+ srcReplaced src rest
  end.

(** The literal text of the token holds no ['%']. *)
Definition literalsPercentFree (ps : list Piece) : bool :=
  forallb (fun p => match p with Lit text => QStr.percentFree text | _ => true end) ps.

(** Reads a token as pieces, one literal piece per character. *)
Fixpoint parsePieces (skip : nat) (s : string) : list Piece :=
  match s with
  | EmptyString => []
  | String c s' =>
      match skip with
      | S k => parsePieces k s'
      | O =>
          if QStr.startsWith "%{src}" s then Src :: parsePieces 5 s'
          else if QStr.startsWith "%{dest}" s then Dest :: parsePieces 6 s'
          else Lit (String c EmptyString) :: parsePieces 0 s'
      end
  end.

(** ** What a spawned extraction forwards *)

(** The signals the archive branch emits for the output of the process:
    one [outputReceived] per chunk of the merged channel. *)
Fixpoint archiveForwarded (evs : list ProcessEvent) : list Effect :=
  match evs with
  | [] => []
  | readyReadStandardOutput data :: rest =>
      Emit (outputReceived (string_of_list_byte data)) :: archiveForwarded rest
  | _ :: rest => archiveForwarded rest
  end.

(** The signals the gzip branch emits for the output of the process when
    no write fails: one [outputReceived] per chunk of standard error. *)
Fixpoint gzipForwarded (evs : list ProcessEvent) : list Effect :=
  match evs with
  | [] => []
  | readyReadStandardError data :: rest =>
      Emit (outputReceived (string_of_list_byte data)) :: gzipForwarded rest
  | _ :: rest => gzipForwarded rest
  end.

(** The signals of the [Process::done] callbacks. *)
Definition finalSignals (r : ProcessResult) : list Effect :=
  if isFinishedWithSuccess r then [Emit (done Success)]
  else [Emit (outputReceived "Command failed."); Emit (done Error)].

(** The token holds a [%{src}]. *)
Definition mentionsSrc (ps : list Piece) : bool :=
  existsb (fun p => match p with Src => true | _ => false end) ps.

(** ** Concrete hosts and worlds *)

Module Sample.

Fixpoint endsWith (suffix s : string) : bool :=
  String.eqb suffix s ||
  match s with
  | EmptyString => false
  | String _ s' => endsWith suffix s'
  end.

Definition compressedTar : MimeType :=
  mkMimeType "application/x-compressed-tar" ["application/gzip"; "application/octet-stream"].

(** A fragment of the shared MIME database, by file suffix. *)
Definition mimeBySuffix (fp : FilePath) : MimeType :=
  if endsWith ".tar.gz" fp then compressedTar
  else if endsWith ".gz" fp then mkMimeType "application/gzip" ["application/octet-stream"]
  else if endsWith ".zip" fp then mkMimeType "application/zip" ["application/octet-stream"]
  else if endsWith ".tar" fp then mkMimeType "application/x-tar" ["application/octet-stream"]
  else mkMimeType "application/octet-stream" [].

Fixpoint lookupInstalled (installed : list (string * FilePath)) (name : string) : FilePath :=
  match installed with
  | [] => ""
  | (n, p) :: rest => if String.eqb n name then p else lookupInstalled rest name
  end.

(** A Unix host on which exactly the listed executables are found. *)
Definition unixHost (installed : list (string * FilePath)) : Host :=
  {| isWindowsHost := false;
     registry64 := fun _ _ => "";
     registry32 := fun _ _ => "";
     withExecutableSuffix := fun fp => fp;
     searchInPath := fun fp _ => lookupInstalled installed fp;
     toUserOutput := fun fp => fp;
     mimeTypeForFile := mimeBySuffix |}.

(** [/out] exists and is writable; every write takes the whole chunk. *)
Definition world0 : World :=
  {| dirs := {["/out"]};
     creatable := ∅;
     unopenable := ∅;
     files := ∅;
     deviceWrite := fun _ _ data => Z.of_nat (length data) |}.

(** As [world0], on a device that holds [capacity] bytes per file. *)
Definition smallDisk (capacity : nat) : World :=
  {| dirs := {["/out"]};
     creatable := ∅;
     unopenable := ∅;
     files := ∅;
     deviceWrite := fun _ cur data =>
       Z.of_nat (Nat.min (length data) (capacity - length cur)) |}.

(** No directory exists and none can be created. *)
Definition sealedWorld : World :=
  {| dirs := ∅;
     creatable := ∅;
     unopenable := ∅;
     files := ∅;
     deviceWrite := fun _ _ data => Z.of_nat (length data) |}.

Definition gzipUnarchiver (destDir : FilePath) : Unarchiver :=
  {| m_sourceAndCommand :=
       Some (mkSourceAndCommand "/tmp/data.gz"
               (mkCommandLine "/usr/bin/gzip" ["-d"; "%{src}"; "-c"]));
     m_destDir := destDir;
     m_gzipFileDestName := "data";
     m_process := None |}.

Definition unzipUnarchiver (destDir : FilePath) : Unarchiver :=
  {| m_sourceAndCommand :=
       Some (mkSourceAndCommand "/tmp/a.zip"
               (mkCommandLine "/usr/bin/unzip" ["-o"; "%{src}"; "-d"; "%{dest}"]));
     m_destDir := destDir;
     m_gzipFileDestName := "";
     m_process := None |}.

(** [/new] does not exist and can be created; the file [/new/data]
    cannot be opened for writing. *)
Definition stuckWorld : World :=
  {| dirs := ∅;
     creatable := {["/new"]};
     unopenable := {["/new/data"]};
     files := ∅;
     deviceWrite := fun _ _ data => Z.of_nat (length data) |}.

(** gzip as a Windows search finds it: the file name is [gzip.exe]. *)
Definition gzipExeUnarchiver (destDir : FilePath) : Unarchiver :=
  {| m_sourceAndCommand :=
       Some (mkSourceAndCommand "/tmp/data.gz"
               (mkCommandLine "C:/tools/gzip.exe" ["-d"; "%{src}"; "-c"]));
     m_destDir := destDir;
     m_gzipFileDestName := "data";
     m_process := None |}.

Definition bareHost : Host := unixHost [].
Definition gzipOnlyHost : Host := unixHost [("gzip", "/usr/bin/gzip")].
Definition tarAndGzipHost : Host :=
  unixHost [("tar", "/usr/bin/tar"); ("gzip", "/usr/bin/gzip")].
Definition zipHost : Host :=
  unixHost [("unzip", "/usr/bin/unzip"); ("7z", "/usr/bin/7z")].

End Sample.

(** * Properties *)

(** ** Resolver *)

Section ResolverFacts.

Context (h : Host).

Lemma firstResolved_filter (p : Tool -> bool) (l : list Tool) (r : Tool) :
  firstResolved h (List.filter p l) = Some r <->
  exists l1 t l2,
    l = l1 ++ t :: l2
    /\ Forall (fun t' => p t' = false \/ resolveTool h t' = None) l1
    /\ p t = true
    /\ resolveTool h t = Some r.
Proof.
  induction l as [|a l IH]; simpl.
  - split; [discriminate|].
    intros (l1 & t & l2 & Hl & _). destruct l1; discriminate.
  - destruct (p a) eqn:Hp; simpl.
    + destruct (resolveTool h a) as [ra|] eqn:Hr.
      * split.
        -- intros [= <-]. exists [], a, l. repeat split; auto.
        -- intros (l1 & t & l2 & Hl & Hall & Hpt & Hrt).
           destruct l1 as [|b l1]; simpl in Hl; injection Hl as -> ->.
           ++ congruence.
           ++ inversion Hall as [|? ? [Hb|Hb] _]; congruence.
      * rewrite IH. split.
        -- intros (l1 & t & l2 & -> & Hall & Hpt & Hrt).
           exists (a :: l1), t, l2. repeat split; auto.
        -- intros (l1 & t & l2 & Hl & Hall & Hpt & Hrt).
           destruct l1 as [|b l1]; simpl in Hl; injection Hl as -> ->.
           ++ congruence.
           ++ exists l1, t, l2. inversion Hall; subst. repeat split; auto.
    + rewrite IH. split.
      * intros (l1 & t & l2 & -> & Hall & Hpt & Hrt).
        exists (a :: l1), t, l2. repeat split; auto.
      * intros (l1 & t & l2 & Hl & Hall & Hpt & Hrt).
        destruct l1 as [|b l1]; simpl in Hl; injection Hl as -> ->.
        -- congruence.
        -- exists l1, t, l2. inversion Hall; subst. repeat split; auto.
Qed.

Lemma firstResolved_None (l : list Tool) :
  firstResolved h l = None <-> Forall (fun t => resolveTool h t = None) l.
Proof.
  induction l as [|a l IH]; simpl.
  - split; auto.
  - destruct (resolveTool h a) eqn:Hr.
    + split; [discriminate|]. intros Hall. inversion Hall; congruence.
    + rewrite IH. split; [auto|]. intros Hall. inversion Hall; auto.
Qed.

Lemma sourceAndCommand_inr (sourceFile : FilePath) (sc : SourceAndCommand) :
  sourceAndCommand h sourceFile = inr sc <->
  exists r, firstResolved h (toolsForFilePath h sourceFile) = Some r
            /\ sc = mkSourceAndCommand sourceFile (command r).
Proof.
  unfold sourceAndCommand.
  destruct (toolsForFilePath h sourceFile) as [|t ts] eqn:Ht.
  - simpl. split; [discriminate|]. intros (r & Hr & _). discriminate.
  - destruct (firstResolved h (t :: ts)) as [r|] eqn:Hf.
    + split.
      * intros [= <-]. eauto.
      * intros (r' & [= <-] & ->). reflexivity.
    + split; [discriminate|]. intros (r' & Hr & _). discriminate.
Qed.

Lemma resolveTool_Some (tool resolved : Tool) :
  resolveTool h tool = Some resolved ->
  isEmpty (foundExecutable h tool) = false
  /\ resolved = mkTool (mkCommandLine (foundExecutable h tool)
                                       (splitArguments (command tool)))
                       (supportedMimeTypes tool) (additionalSearchDirs tool).
Proof.
  unfold resolveTool, setExecutable.
  destruct (isEmpty (foundExecutable h tool)); [discriminate|].
  intros [= <-]. auto.
Qed.

Lemma resolveTool_None (tool : Tool) :
  resolveTool h tool = None <-> isEmpty (foundExecutable h tool) = true.
Proof.
  unfold resolveTool.
  destruct (isEmpty (foundExecutable h tool)); split; congruence.
Qed.

End ResolverFacts.

(** C9. [resolveTool] yields nothing exactly when the executable search
    comes back empty; otherwise it yields a copy of the catalog entry whose
    executable is the path found, with the argument list, the supported
    MIME types and the additional search directories of the entry.  The
    entry is passed by constant reference and copied, so the catalog
    [sTools] is what it was. *)
Theorem resolveTool_frame (h : Host) (tool : Tool) :
  (resolveTool h tool = None <-> isEmpty (foundExecutable h tool) = true)
  /\ (isEmpty (foundExecutable h tool) = false <->
      exists resolved, resolveTool h tool = Some resolved)
  /\ (forall resolved, resolveTool h tool = Some resolved ->
        executable (command resolved) = foundExecutable h tool
        /\ splitArguments (command resolved) = splitArguments (command tool)
        /\ supportedMimeTypes resolved = supportedMimeTypes tool
        /\ additionalSearchDirs resolved = additionalSearchDirs tool).
Proof.
  split; [apply resolveTool_None|]. split.
  - unfold resolveTool. destruct (isEmpty (foundExecutable h tool)); split.
    + discriminate.
    + intros [r Hr]. discriminate.
    + eauto.
    + reflexivity.
  - intros resolved Hr. apply resolveTool_Some in Hr as [_ ->]. simpl. auto.
Qed.

(** C5. Tool selection is a function of the source file and the host, and
    it succeeds with a command exactly when that command is the resolved
    command of the first catalog entry, in catalog order, that both
    supports the detected MIME type and resolves: every entry in front of
    it fails one of the two tests. *)
Theorem sourceAndCommand_first_match (h : Host) (sourceFile : FilePath)
    (sc : SourceAndCommand) :
  sourceAndCommand h sourceFile = inr sc <->
  exists before tool after resolved,
    sTools h = before ++ tool :: after
    /\ Forall (fun t => supportsMimeType (mimeTypeForFile h sourceFile) t = false
                        \/ resolveTool h t = None) before
    /\ supportsMimeType (mimeTypeForFile h sourceFile) tool = true
    /\ resolveTool h tool = Some resolved
    /\ sc = mkSourceAndCommand sourceFile (command resolved).
Proof.
  rewrite sourceAndCommand_inr. unfold toolsForFilePath, toolsForMimeType. split.
  - intros (r & Hr & ->). apply firstResolved_filter in Hr
      as (l1 & t & l2 & Hl & Hall & Hp & Hres).
    exists l1, t, l2, r. auto.
  - intros (l1 & t & l2 & r & Hl & Hall & Hp & Hres & ->).
    exists r. split; [|reflexivity].
    apply firstResolved_filter. exists l1, t, l2. auto.
Qed.

Lemma string_app_nil (s : string) : "" +:+ s = s.
Proof. reflexivity. Qed.

Lemma string_app_cons (c : ascii) (a b : string) :
  String c a +:+ b = String c (a +:+ b).
Proof. reflexivity. Qed.

Lemma string_app_assoc (a b c : string) : (a +:+ b) +:+ c = a +:+ (b +:+ c).
Proof.
  induction a as [|x a IH]; [reflexivity|].
  rewrite !string_app_cons. now rewrite IH.
Qed.

Lemma join_occurInOrder (sep : string) (names : list string) (pre post : string) :
  QStr.occurInOrder names (pre +:+ QStr.join sep names +:+ post).
Proof.
  revert pre. induction names as [|n rest IH]; intros pre; simpl; [exact I|].
  destruct rest as [|m rest'].
  - exists pre, post. split; [reflexivity|exact I].
  - exists pre, (sep +:+ QStr.join sep (m :: rest') +:+ post). split.
    + now rewrite !string_app_assoc.
    + apply IH.
Qed.

Lemma sourceAndCommand_inl_execs (h : Host) (sourceFile : FilePath) :
  Exists (fun t => supportsMimeType (mimeTypeForFile h sourceFile) t = true) (sTools h) ->
  Forall (fun t => supportsMimeType (mimeTypeForFile h sourceFile) t = true ->
                   resolveTool h t = None) (sTools h) ->
  sourceAndCommand h sourceFile
  = inl (msgNoExecutableFound
           (attemptedExecs h
              (List.filter (supportsMimeType (mimeTypeForFile h sourceFile)) (sTools h)))).
Proof.
  intros Hex Hall.
  unfold sourceAndCommand, toolsForFilePath, toolsForMimeType.
  assert (Hnone : firstResolved h
            (List.filter (supportsMimeType (mimeTypeForFile h sourceFile)) (sTools h)) = None).
  { apply firstResolved_None. apply List.Forall_forall. intros t Ht.
    apply List.filter_In in Ht as [Hin Hp].
    rewrite List.Forall_forall in Hall. auto. }
  destruct (List.filter _ (sTools h)) as [|t ts] eqn:Hf.
  - exfalso. apply List.Exists_exists in Hex as (t & Hin & Hp).
    assert (Hin' : In t (List.filter (supportsMimeType (mimeTypeForFile h sourceFile)) (sTools h)))
      by (apply List.filter_In; auto).
    rewrite Hf in Hin'. destruct Hin'.
  - rewrite Hnone. reflexivity.
Qed.

(** C4. When at least one catalog tool supports the detected MIME type and
    no supporting tool resolves, [sourceAndCommand] fails with the
    "Could not find any unarchiving executable" message, built from the
    display names of the executables of all supporting tools in catalog
    order; each of these names occurs in the message, one behind the
    other. *)
Theorem sourceAndCommand_no_executable (h : Host) (sourceFile : FilePath) :
  Exists (fun t => supportsMimeType (mimeTypeForFile h sourceFile) t = true) (sTools h) ->
  Forall (fun t => supportsMimeType (mimeTypeForFile h sourceFile) t = true ->
                   resolveTool h t = None) (sTools h) ->
  let execs :=
    attemptedExecs h (List.filter (supportsMimeType (mimeTypeForFile h sourceFile)) (sTools h)) in
  sourceAndCommand h sourceFile = inl (msgNoExecutableFound execs)
  /\ QStr.occurInOrder execs (msgNoExecutableFound execs).
Proof.
  intros Hex Hall execs. split.
  - now apply sourceAndCommand_inl_execs.
  - unfold msgNoExecutableFound. apply join_occurInOrder.
Qed.

Lemma sourceAndCommand_no_executable_witness :
  sourceAndCommand Sample.bareHost "archive.zip"
  = inl "Could not find any unarchiving executable in PATH (unzip, 7z, cmake, tar).".
Proof.
  refine (proj1 (sourceAndCommand_no_executable Sample.bareHost "archive.zip" _ _)).
  - apply List.Exists_exists. eexists. split; [left; reflexivity|reflexivity].
  - repeat constructor.
Defined.

Lemma archiveTools_not_gzip (h : Host) (t : Tool) :
  In t (archiveTools h) -> executable (command t) <> "gzip".
Proof.
  unfold archiveTools. intros Hin.
  apply List.in_app_or in Hin as [Hin|Hin].
  - destruct (isWindowsHost h); simpl in Hin; [|tauto].
    destruct Hin as [<-|[]]. discriminate.
  - simpl in Hin.
    repeat (destruct Hin as [<-|Hin]; [discriminate|]). destruct Hin.
Qed.

Lemma compressedTar_supported (h : Host) (mt : MimeType) :
  mimeName mt = "application/x-compressed-tar" ->
  Exists (fun t => supportsMimeType mt t = true) (sTools h).
Proof.
  intros Hname. apply List.Exists_exists.
  exists (mkTool (mkCommandLine "cmake" ["-E"; "tar"; "xvzf"; "%{src}"])
                 ["application/x-compressed-tar"] (additionalCMakeDirs h)).
  split.
  - unfold sTools, archiveTools. apply List.in_or_app. left.
    apply List.in_or_app. right. simpl. tauto.
  - unfold supportsMimeType, inherits. simpl. rewrite Hname. reflexivity.
Qed.

Lemma msgNoExecutableFound_not_unsupported (execs : list string) :
  msgNoExecutableFound execs <> msgUnsupportedFormat.
Proof.
  unfold msgNoExecutableFound, msgUnsupportedFormat.
  rewrite string_app_cons. discriminate.
Qed.

(** The claim C1 fails on a host where only gzip is installed: the
    compressed-tar type inherits application/gzip, the gzip entry is a
    candidate, and it is selected. *)
Lemma compressed_tar_selects_gzip :
  mimeName (mimeTypeForFile Sample.gzipOnlyHost "archive.tar.gz")
    = "application/x-compressed-tar"
  /\ Forall (fun t => executable (command t) <> "gzip" ->
                      resolveTool Sample.gzipOnlyHost t = None)
            (sTools Sample.gzipOnlyHost)
  /\ resolveTool Sample.gzipOnlyHost (gzipTool) <> None
  /\ sourceAndCommand Sample.gzipOnlyHost "archive.tar.gz"
     = inr (mkSourceAndCommand "archive.tar.gz"
              (mkCommandLine "/usr/bin/gzip" ["-d"; "%{src}"; "-c"]))
  /\ sourceAndCommand Sample.gzipOnlyHost "archive.tar.gz" <> inl msgUnsupportedFormat.
Proof.
  split; [reflexivity|]. split.
  - repeat constructor; intros Hne; solve [reflexivity | exfalso; apply Hne; reflexivity].
  - split; [discriminate|]. split; [reflexivity|discriminate].
Qed.

(** With tar installed, tar is chosen for the compressed tar file, in front
    of gzip; a plain gzip file goes to gzip. *)
Example tar_before_gzip :
  sourceAndCommand Sample.tarAndGzipHost "archive.tar.gz"
  = inr (mkSourceAndCommand "archive.tar.gz"
           (mkCommandLine "/usr/bin/tar" ["xvzf"; "%{src}"])).
Proof. reflexivity. Qed.

Example gzip_for_gz :
  sourceAndCommand Sample.tarAndGzipHost "data.gz"
  = inr (mkSourceAndCommand "data.gz"
           (mkCommandLine "/usr/bin/gzip" ["-d"; "%{src}"; "-c"])).
Proof. reflexivity. Qed.

Example unsupported_format :
  sourceAndCommand Sample.tarAndGzipHost "notes.txt" = inl "File format not supported.".
Proof. reflexivity. Qed.

(** C1, amended.  For a source file whose detected type is
    application/x-compressed-tar, on a host where no catalog tool other
    than gzip resolves and gzip does, [sourceAndCommand] never fails with
    "File format not supported.": the cmake and tar entries declare the
    type, so the candidate list is not empty.  When the detected type
    inherits application/gzip, the gzip entry is the last candidate and
    its resolved command is returned; when it does not, the failure is the
    "Could not find any unarchiving executable" one. *)
Theorem compressed_tar_gzip_fallback (h : Host) (sourceFile : FilePath) (resolved : Tool) :
  mimeName (mimeTypeForFile h sourceFile) = "application/x-compressed-tar" ->
  (forall t, In t (sTools h) -> executable (command t) <> "gzip" ->
             resolveTool h t = None) ->
  resolveTool h gzipTool = Some resolved ->
  sourceAndCommand h sourceFile <> inl msgUnsupportedFormat
  /\ (inherits (mimeTypeForFile h sourceFile) "application/gzip" = true ->
      sourceAndCommand h sourceFile
      = inr (mkSourceAndCommand sourceFile (command resolved)))
  /\ (inherits (mimeTypeForFile h sourceFile) "application/gzip" = false ->
      exists execs, sourceAndCommand h sourceFile = inl (msgNoExecutableFound execs)).
Proof.
  intros Hname Hothers Hgzip.
  assert (Hall : Forall (fun t => supportsMimeType (mimeTypeForFile h sourceFile) t = false
                                  \/ resolveTool h t = None) (archiveTools h)).
  { apply List.Forall_forall. intros t Hin. right. apply Hothers.
    - unfold sTools. apply List.in_or_app. auto.
    - now apply (archiveTools_not_gzip h). }
  assert (Hsup : supportsMimeType (mimeTypeForFile h sourceFile) gzipTool
                 = inherits (mimeTypeForFile h sourceFile) "application/gzip").
  { unfold supportsMimeType. simpl. apply orb_false_r. }
  assert (Hyes : inherits (mimeTypeForFile h sourceFile) "application/gzip" = true ->
                 sourceAndCommand h sourceFile
                 = inr (mkSourceAndCommand sourceFile (command resolved))).
  { intros Hinh. apply sourceAndCommand_inr. exists resolved. split; [|reflexivity].
    apply firstResolved_filter. exists (archiveTools h), gzipTool, [].
    repeat split; auto. now rewrite Hsup. }
  assert (Hno : inherits (mimeTypeForFile h sourceFile) "application/gzip" = false ->
                sourceAndCommand h sourceFile
                = inl (msgNoExecutableFound
                         (attemptedExecs h
                            (List.filter (supportsMimeType (mimeTypeForFile h sourceFile))
                                         (sTools h))))).
  { intros Hinh. apply sourceAndCommand_inl_execs.
    - now apply compressedTar_supported.
    - apply List.Forall_forall. intros t Hin Hp.
      unfold sTools in Hin. apply List.in_app_or in Hin as [Hin|[<-|[]]].
      + apply Hothers; [unfold sTools; apply List.in_or_app; auto|].
        now apply (archiveTools_not_gzip h).
      + congruence. }
  split; [|split; [exact Hyes|eauto]].
  destruct (inherits (mimeTypeForFile h sourceFile) "application/gzip") eqn:Hinh.
  - rewrite Hyes by reflexivity. discriminate.
  - rewrite Hno by reflexivity. intros Heq.
    apply (msgNoExecutableFound_not_unsupported
             (attemptedExecs h
                (List.filter (supportsMimeType (mimeTypeForFile h sourceFile)) (sTools h)))).
    congruence.
Qed.

Lemma compressed_tar_gzip_fallback_witness :
  sourceAndCommand Sample.gzipOnlyHost "archive.tar.gz" <> inl msgUnsupportedFormat
  /\ sourceAndCommand Sample.gzipOnlyHost "archive.tar.gz"
     = inr (mkSourceAndCommand "archive.tar.gz"
              (mkCommandLine "/usr/bin/gzip" ["-d"; "%{src}"; "-c"])).
Proof.
  assert (Hothers : forall t, In t (sTools Sample.gzipOnlyHost) ->
            executable (command t) <> "gzip" -> resolveTool Sample.gzipOnlyHost t = None).
  { intros t Hin Hne. simpl in Hin.
    repeat (destruct Hin as [<-|Hin]; [solve [reflexivity | exfalso; apply Hne; reflexivity]|]).
    destruct Hin. }
  destruct (compressed_tar_gzip_fallback Sample.gzipOnlyHost "archive.tar.gz"
              (mkTool (mkCommandLine "/usr/bin/gzip" ["-d"; "%{src}"; "-c"])
                      ["application/gzip"] [])
              eq_refl Hothers eq_refl) as (Hne & Hyes & _).
  split; [exact Hne|]. apply Hyes. reflexivity.
Defined.

(** ** Command builder *)

Section ReplaceFacts.

Variable after : string.

Lemma percentFree_app (a b : string) :
  QStr.percentFree (a +:+ b) = QStr.percentFree a && QStr.percentFree b.
Proof.
  induction a as [|c a IH]; [reflexivity|].
  rewrite string_app_cons. simpl. rewrite IH. now rewrite andb_assoc.
Qed.

Lemma replace_src_literal (s rest : string) :
  QStr.percentFree s = true ->
  QStr.replace_from 0 "%{src}" after (s +:+ rest)
  = s +:+ QStr.replace_from 0 "%{src}" after rest.
Proof.
  induction s as [|c s IH]; intros Hfree; [reflexivity|].
  simpl in Hfree. apply andb_prop in Hfree as [Hc Hs].
  rewrite !string_app_cons. cbn [QStr.replace_from QStr.startsWith].
  rewrite Ascii.eqb_sym. apply negb_true_iff in Hc. rewrite Hc.
  now rewrite IH.
Qed.

Lemma replace_dest_literal (s rest : string) :
  QStr.percentFree s = true ->
  QStr.replace_from 0 "%{dest}" after (s +:+ rest)
  = s +:+ QStr.replace_from 0 "%{dest}" after rest.
Proof.
  induction s as [|c s IH]; intros Hfree; [reflexivity|].
  simpl in Hfree. apply andb_prop in Hfree as [Hc Hs].
  rewrite !string_app_cons. cbn [QStr.replace_from QStr.startsWith].
  rewrite Ascii.eqb_sym. apply negb_true_iff in Hc. rewrite Hc.
  now rewrite IH.
Qed.

Lemma replace_src_at_src (rest : string) :
  QStr.replace_from 0 "%{src}" after ("%{src}" +:+ rest)
  = after +:+ QStr.replace_from 0 "%{src}" after rest.
Proof. reflexivity. Qed.

Lemma replace_src_at_dest (rest : string) :
  QStr.replace_from 0 "%{src}" after ("%{dest}" +:+ rest)
  = "%{dest}" +:+ QStr.replace_from 0 "%{src}" after rest.
Proof. reflexivity. Qed.

Lemma replace_dest_at_dest (rest : string) :
  QStr.replace_from 0 "%{dest}" after ("%{dest}" +:+ rest)
  = after +:+ QStr.replace_from 0 "%{dest}" after rest.
Proof. reflexivity. Qed.

End ReplaceFacts.

Lemma replace_src_pieces (src : string) (ps : list Piece) :
  literalsPercentFree ps = true ->
  QStr.replace "%{src}" src (templateText ps) = srcReplaced src ps.
Proof.
  unfold QStr.replace. induction ps as [|p ps IH]; intros Hlit; [reflexivity|].
  simpl in Hlit. apply andb_prop in Hlit as [Hp Hps]. specialize (IH Hps).
  destruct p as [text| |]; cbn [templateText pieceText srcReplaced pieceValue].
  - rewrite replace_src_literal by exact Hp. now rewrite IH.
  - rewrite replace_src_at_src. now rewrite IH.
  - rewrite replace_src_at_dest. now rewrite IH.
Qed.

Lemma replace_dest_pieces (src dest : string) (ps : list Piece) :
  QStr.percentFree src = true ->
  literalsPercentFree ps = true ->
  QStr.replace "%{dest}" dest (srcReplaced src ps) = instantiate src dest ps.
Proof.
  intros Hsrc. unfold QStr.replace.
  induction ps as [|p ps IH]; intros Hlit; [reflexivity|].
  simpl in Hlit. apply andb_prop in Hlit as [Hp Hps]. specialize (IH Hps).
  destruct p as [text| |]; cbn [instantiate srcReplaced pieceValue].
  - rewrite replace_dest_literal by exact Hp. now rewrite IH.
  - rewrite replace_dest_literal by exact Hsrc. now rewrite IH.
  - rewrite replace_dest_at_dest. now rewrite IH.
Qed.

Lemma renderArg_pieces (src dest : FilePath) (ps : list Piece) :
  QStr.percentFree (path src) = true ->
  literalsPercentFree ps = true ->
  renderArg src dest (templateText ps) = instantiate (path src) (path dest) ps.
Proof.
  intros Hsrc Hlit. unfold renderArg.
  rewrite replace_src_pieces by exact Hlit.
  now apply replace_dest_pieces.
Qed.

Lemma instantiate_percentFree (src dest : string) (ps : list Piece) :
  QStr.percentFree src = true ->
  QStr.percentFree dest = true ->
  literalsPercentFree ps = true ->
  QStr.percentFree (instantiate src dest ps) = true.
Proof.
  intros Hsrc Hdest. induction ps as [|p ps IH]; intros Hlit; [reflexivity|].
  simpl in Hlit. apply andb_prop in Hlit as [Hp Hps].
  simpl. rewrite percentFree_app, (IH Hps), andb_true_r.
  destruct p; assumption.
Qed.

Lemma percentFree_no_placeholder (p s : string) :
  QStr.percentFree s = true ->
  QStr.contains (String "%"%char p) s = false.
Proof.
  induction s as [|d s IH]; intros Hfree; [reflexivity|].
  simpl in Hfree. apply andb_prop in Hfree as [Hd Hs].
  cbn [QStr.contains QStr.startsWith].
  rewrite Ascii.eqb_sym. apply negb_true_iff in Hd. rewrite Hd. simpl.
  now apply IH.
Qed.

(** Every argument token of every catalog entry is placeholders and
    literal text without ['%']. *)
Lemma sTools_templates (h : Host) (t : Tool) :
  In t (sTools h) ->
  let tokens := List.map (parsePieces 0) (splitArguments (command t)) in
  forallb literalsPercentFree tokens = true
  /\ List.map templateText tokens = splitArguments (command t).
Proof.
  unfold sTools, archiveTools. intros Hin.
  apply List.in_app_or in Hin as [Hin|[<-|[]]]; [|split; reflexivity].
  apply List.in_app_or in Hin as [Hin|Hin].
  - destruct (isWindowsHost h); simpl in Hin; [|tauto].
    destruct Hin as [<-|[]]. split; reflexivity.
  - simpl in Hin.
    repeat (destruct Hin as [<-|Hin]; [split; reflexivity|]). destruct Hin.
Qed.

(** The claim C6 fails for paths that hold placeholder text: a
    destination path with [%{src}] in it leaves a placeholder in the
    rendered 7z command, and a source path with [%{dest}] in it is itself
    rewritten by the second replacement. *)
Lemma unarchiveCommand_placeholder_survives :
  unarchiveCommand (mkCommandLine "7z" ["x"; "-o%{dest}"; "-y"; "-bb"; "%{src}"])
                   "/tmp/a.zip" "/out/%{src}"
  = mkCommandLine "7z" ["x"; "-o/out/%{src}"; "-y"; "-bb"; "/tmp/a.zip"]
  /\ ~ (forall arg,
          In arg (splitArguments
                    (unarchiveCommand
                       (mkCommandLine "7z" ["x"; "-o%{dest}"; "-y"; "-bb"; "%{src}"])
                       "/tmp/a.zip" "/out/%{src}")) ->
          QStr.contains "%{src}" arg = false /\ QStr.contains "%{dest}" arg = false)
  /\ unarchiveCommand (mkCommandLine "unzip" ["-o"; "%{src}"; "-d"; "%{dest}"])
                      "/tmp/%{dest}.zip" "/out"
     = mkCommandLine "unzip" ["-o"; "/tmp//out.zip"; "-d"; "/out"].
Proof.
  split; [reflexivity|]. split; [|reflexivity].
  intros Hall. destruct (Hall "-o/out/%{src}") as [Hsrc _].
  - simpl. tauto.
  - discriminate Hsrc.
Qed.

(** C6, amended.  For every command template whose argument tokens are
    placeholders and literal text without ['%'] (as all catalog tokens
    are), and for a source path and a destination path without ['%'],
    rendering turns every token into its literal text with every
    [%{src}] replaced by the source path and every [%{dest}] by the
    destination path, however many occur in a token and over however many
    tokens; the executable is the template's, and no placeholder occurs in
    a rendered argument. *)
Theorem unarchiveCommand_exact (commandTemplate : CommandLine)
    (sourceFile destDir : FilePath) (tokens : list (list Piece)) :
  QStr.percentFree (path sourceFile) = true ->
  QStr.percentFree (path destDir) = true ->
  forallb literalsPercentFree tokens = true ->
  splitArguments commandTemplate = List.map templateText tokens ->
  executable (unarchiveCommand commandTemplate sourceFile destDir)
  = executable commandTemplate
  /\ splitArguments (unarchiveCommand commandTemplate sourceFile destDir)
     = List.map (instantiate (path sourceFile) (path destDir)) tokens
  /\ Forall (fun arg => QStr.contains "%{src}" arg = false
                        /\ QStr.contains "%{dest}" arg = false)
            (splitArguments (unarchiveCommand commandTemplate sourceFile destDir)).
Proof.
  intros Hsrc Hdest Hlit Hargs.
  assert (Hrender : splitArguments (unarchiveCommand commandTemplate sourceFile destDir)
                    = List.map (instantiate (path sourceFile) (path destDir)) tokens).
  { unfold unarchiveCommand. cbn [splitArguments]. rewrite Hargs. clear Hargs.
    induction tokens as [|ps tokens IH]; [reflexivity|].
    simpl in Hlit. apply andb_prop in Hlit as [Hps Hrest].
    cbn [List.map]. rewrite renderArg_pieces by assumption.
    now rewrite IH. }
  split; [reflexivity|]. split; [exact Hrender|].
  rewrite Hrender. clear Hrender Hargs.
  induction tokens as [|ps tokens IH]; [constructor|].
  simpl in Hlit. apply andb_prop in Hlit as [Hps Hrest].
  cbn [List.map]. constructor; [|now apply IH].
  split; apply percentFree_no_placeholder; now apply instantiate_percentFree.
Qed.

Lemma unarchiveCommand_exact_witness :
  splitArguments
    (unarchiveCommand (mkCommandLine "/usr/bin/7z" ["x"; "-o%{dest}"; "-y"; "-bb"; "%{src}"])
                      "/tmp/a.zip" "/out")
  = ["x"; "-o/out"; "-y"; "-bb"; "/tmp/a.zip"].
Proof.
  exact (proj1 (proj2
    (unarchiveCommand_exact
       (mkCommandLine "/usr/bin/7z" ["x"; "-o%{dest}"; "-y"; "-bb"; "%{src}"])
       "/tmp/a.zip" "/out"
       [[Lit "x"]; [Lit "-o"; Dest]; [Lit "-y"]; [Lit "-bb"]; [Src]]
       eq_refl eq_refl eq_refl eq_refl))).
Defined.

(** ** Executor: before the process is spawned *)

Lemma splitPath_slashFree (n : string) :
  QStr.slashFree n = true -> splitPath n = (None, n).
Proof.
  induction n as [|c n IH]; intros Hfree; [reflexivity|].
  simpl in Hfree. apply andb_prop in Hfree as [Hc Hn].
  simpl. rewrite (IH Hn). apply negb_true_iff in Hc. now rewrite Hc.
Qed.

Lemma splitPath_join (d n : string) :
  QStr.slashFree n = true -> splitPath (d +:+ "/" +:+ n) = (Some d, n).
Proof.
  intros Hfree. induction d as [|c d IH].
  - rewrite string_app_nil, string_app_cons, string_app_nil.
    simpl. now rewrite (splitPath_slashFree n Hfree).
  - rewrite string_app_cons. simpl. now rewrite IH.
Qed.

Lemma parentDir_pathAppended (d : FilePath) (n : string) :
  isEmpty d = false -> String.eqb n "" = false -> QStr.slashFree n = true ->
  QStr.endsWithSlash d = false ->
  parentDir (pathAppended d n) = d.
Proof.
  unfold isEmpty, pathAppended, parentDir. intros Hd Hn Hfree Hslash.
  destruct n as [|c n]; [discriminate Hn|].
  rewrite Hd, Hn, Hslash.
  pose proof Hfree as Hc. cbn [QStr.slashFree] in Hc.
  apply andb_prop in Hc as [Hc _]. apply negb_true_iff in Hc. rewrite Hc.
  rewrite string_app_assoc. now rewrite splitPath_join.
Qed.

Lemma ensureWritableDir_false (d : FilePath) (w : World) :
  fst (ensureWritableDir d w) = false ->
  (d ∉ dirs w) /\ snd (ensureWritableDir d w) = w.
Proof.
  unfold ensureWritableDir.
  destruct (decide (d ∈ dirs w)); [discriminate|].
  destruct (decide (d ∈ creatable w)); [discriminate|]. auto.
Qed.

(** C8. [start()] on an instance that owns a process fails the assertion
    [!m_process]: the failure is logged, [done(Error)] is emitted, nothing
    is spawned, and the instance and the file system are left as they
    were (the call is neither queued nor dropped without a trace). *)
Theorem start_while_running (h : Host) (u : Unarchiver) (w : World) (p : Process) :
  m_process u = Some p ->
  start h u w = (u, w, [AssertFailed "!m_process"; Emit (done Error)])
  /\ existsb isSpawn (effectsOf (start h u w)) = false.
Proof.
  intros Hp. unfold start. rewrite Hp. split; reflexivity.
Qed.

Lemma start_while_running_witness :
  effectsOf (start Sample.bareHost
               (selfOf (start Sample.bareHost (Sample.unzipUnarchiver "/out") Sample.world0))
               Sample.world0)
  = [AssertFailed "!m_process"; Emit (done Error)].
Proof.
  exact (f_equal effectsOf
    (proj1 (start_while_running Sample.bareHost
       (selfOf (start Sample.bareHost (Sample.unzipUnarchiver "/out") Sample.world0))
       Sample.world0
       (mkProcess (mkCommandLine "/usr/bin/unzip" ["-o"; "/tmp/a.zip"; "-d"; "/out"])
                  "/out" true ArchiveConnections None)
       eq_refl))).
Defined.

(** The claim C3 fails in the archive branch: no directory exists and none
    can be created, and [start()] spawns unzip all the same, without a
    terminal event. *)
Lemma start_spawns_in_unwritable_destination :
  fst (ensureWritableDir "/sealed/out" Sample.sealedWorld) = false
  /\ effectsOf (start Sample.bareHost (Sample.unzipUnarchiver "/sealed/out") Sample.sealedWorld)
     = [Emit (outputReceived
                (msgRunning Sample.bareHost
                   (mkCommandLine "/usr/bin/unzip" ["-o"; "/tmp/a.zip"; "-d"; "/sealed/out"])
                   "/sealed/out"));
        Spawn (mkCommandLine "/usr/bin/unzip" ["-o"; "/tmp/a.zip"; "-d"; "/sealed/out"])
              "/sealed/out"]
  /\ existsb isSpawn
       (effectsOf (start Sample.bareHost (Sample.unzipUnarchiver "/sealed/out")
                         Sample.sealedWorld)) = true
  /\ countDone
       (effectsOf (start Sample.bareHost (Sample.unzipUnarchiver "/sealed/out")
                         Sample.sealedWorld)) = 0.
Proof. repeat split; vm_compute; reflexivity. Qed.

(** C3, amended.  [start()] calls [ensureWritableDir] and does not consult
    its verdict.  When the destination directory cannot be created or made
    writable: in the archive-tool branch [start()] spawns the child
    process in that directory and emits no terminal event of its own; in
    the raw-decompressor branch, when the output file does not exist yet
    (the destination name a plain file name, the directory path without a
    trailing slash), the file cannot be created in that directory, and
    [start()] emits "Failed to open output file." and the terminal Error
    without spawning a process.  An output file that is already there is
    left out: it may open, and gzip is then spawned. *)
Theorem start_unwritable_destination (h : Host) (u : Unarchiver) (w : World)
    (sc : SourceAndCommand) :
  m_process u = None ->
  m_sourceAndCommand u = Some sc ->
  isEmpty (m_destDir u) = false ->
  fst (ensureWritableDir (m_destDir u) w) = false ->
  (fileName (executable (m_commandTemplate sc)) = "gzip" ->
   String.eqb (m_gzipFileDestName u) "" = false ->
   QStr.slashFree (m_gzipFileDestName u) = true ->
   QStr.endsWithSlash (m_destDir u) = false ->
   files w !! outputPath u = None ->
   start h u w = (u, w, [Emit (outputReceived "Failed to open output file.");
                         Emit (done Error)]))
  /\ (fileName (executable (m_commandTemplate sc)) <> "gzip" ->
      let command :=
        unarchiveCommand (m_commandTemplate sc) (m_sourceFile sc) (m_destDir u) in
      start h u w
      = (setProcess u (mkProcess command (m_destDir u) true ArchiveConnections None), w,
         [Emit (outputReceived (msgRunning h command (m_destDir u)));
          Spawn command (m_destDir u)])).
Proof.
  intros Hproc Hsc Hdest Hens.
  apply ensureWritableDir_false in Hens as [Hnot Hw1].
  unfold start. rewrite Hproc, Hsc, Hdest, Hw1. cbn [unarchiveCommand executable].
  split.
  - intros Hgzip Hname Hfree Hslash _. rewrite Hgzip. cbn [String.eqb Ascii.eqb Bool.eqb].
    unfold qfileOpen, canOpenWriteOnly. cbn [qfileName].
    rewrite parentDir_pathAppended by assumption.
    rewrite (bool_decide_eq_false_2 _ Hnot). reflexivity.
  - intros Hgzip.
    destruct (String.eqb_spec (fileName (executable (m_commandTemplate sc))) "gzip")
      as [Heq|_]; [contradiction|]. reflexivity.
Qed.

Lemma start_unwritable_destination_witness :
  start Sample.bareHost (Sample.gzipUnarchiver "/sealed/out") Sample.sealedWorld
  = (Sample.gzipUnarchiver "/sealed/out", Sample.sealedWorld,
     [Emit (outputReceived "Failed to open output file."); Emit (done Error)]).
Proof.
  exact (proj1 (start_unwritable_destination Sample.bareHost
                  (Sample.gzipUnarchiver "/sealed/out") Sample.sealedWorld
                  (mkSourceAndCommand "/tmp/data.gz"
                     (mkCommandLine "/usr/bin/gzip" ["-d"; "%{src}"; "-c"]))
                  eq_refl eq_refl eq_refl eq_refl)
               eq_refl eq_refl eq_refl eq_refl eq_refl).
Defined.

(** ** Executor: the callbacks *)

Section Callbacks.

Lemma deliverAll_app (u : Unarchiver) (w : World) (a b : list ProcessEvent) :
  deliverAll u w (a ++ b)
  = (selfOf (deliverAll (selfOf (deliverAll u w a)) (worldOf (deliverAll u w a)) b),
     worldOf (deliverAll (selfOf (deliverAll u w a)) (worldOf (deliverAll u w a)) b),
     effectsOf (deliverAll u w a)
     ++ effectsOf (deliverAll (selfOf (deliverAll u w a))
                              (worldOf (deliverAll u w a)) b)).
Proof.
  revert u w. induction a as [|ev a IH]; intros u w.
  - cbn [app deliverAll selfOf worldOf effectsOf fst snd].
    now destruct (deliverAll u w b) as [[u' w'] out].
  - cbn [app deliverAll]. destruct (deliver u w ev) as [[u1 w1] out1].
    rewrite IH.
    destruct (deliverAll u1 w1 a) as [[u2 w2] out2].
    cbn [selfOf worldOf effectsOf fst snd].
    destruct (deliverAll u2 w2 b) as [[u3 w3] out3].
    cbn [fst snd]. now rewrite app_assoc.
Qed.

Lemma deliverAll_cons (u : Unarchiver) (w : World) (ev : ProcessEvent)
    (rest : list ProcessEvent) :
  deliverAll u w (ev :: rest)
  = (selfOf (deliverAll (selfOf (deliver u w ev)) (worldOf (deliver u w ev)) rest),
     worldOf (deliverAll (selfOf (deliver u w ev)) (worldOf (deliver u w ev)) rest),
     effectsOf (deliver u w ev)
     ++ effectsOf (deliverAll (selfOf (deliver u w ev))
                              (worldOf (deliver u w ev)) rest)).
Proof.
  cbn [deliverAll]. destruct (deliver u w ev) as [[u1 w1] out1].
  cbn [selfOf worldOf effectsOf fst snd].
  now destruct (deliverAll u1 w1 rest) as [[u2 w2] out2].
Qed.

Lemma gzipFileOf_inv (u : Unarchiver) (f : QFile) :
  gzipFileOf u = Some f ->
  exists p, m_process u = Some p /\ connections p = GzipConnections f.
Proof.
  unfold gzipFileOf. destruct (m_process u) as [p|]; [|discriminate].
  destruct (connections p) eqn:Hc; [|discriminate].
  intros [= ->]. eauto.
Qed.

(** A chunk of standard output in the gzip branch. *)
Lemma deliver_gzip_stdout (u : Unarchiver) (w : World) (f : QFile) (data : list byte) :
  gzipFileOf u = Some f -> isOpen f = true ->
  let cur := default [] (files w !! qfileName f) in
  let n := deviceWrite w (qfileName f) cur data in
  gzipFileOf (selfOf (deliver u w (readyReadStandardOutput data))) = Some f
  /\ worldOf (deliver u w (readyReadStandardOutput data))
     = setFiles w (<[qfileName f := cur ++ take (Z.to_nat n) data]> (files w))
  /\ effectsOf (deliver u w (readyReadStandardOutput data))
     = if Z.eqb n (Z.of_nat (length data)) then []
       else [Emit (outputReceived "Failed to write output file."); Emit (done Error)].
Proof.
  intros Hf Hopen cur n. apply gzipFileOf_inv in Hf as (p & Hp & Hc).
  unfold deliver, onReadyReadStandardOutput, qfileWrite.
  rewrite Hp, Hc, Hopen. fold cur. fold n.
  destruct (Z.eqb n (Z.of_nat (length data)));
    cbn [negb selfOf worldOf effectsOf fst snd];
    unfold gzipFileOf; cbn [setProcess m_process]; rewrite Hc; auto.
Qed.

(** A chunk of standard error in the gzip branch. *)
Lemma deliver_gzip_stderr (u : Unarchiver) (w : World) (f : QFile) (data : list byte) :
  gzipFileOf u = Some f ->
  gzipFileOf (selfOf (deliver u w (readyReadStandardError data))) = Some f
  /\ worldOf (deliver u w (readyReadStandardError data)) = w
  /\ effectsOf (deliver u w (readyReadStandardError data))
     = [Emit (outputReceived (string_of_list_byte data))].
Proof.
  intros Hf. apply gzipFileOf_inv in Hf as (p & Hp & Hc).
  unfold deliver, onReadyReadStandardError. rewrite Hp, Hc.
  cbn [selfOf worldOf effectsOf fst snd].
  unfold gzipFileOf; cbn [setProcess m_process]; rewrite Hc; auto.
Qed.

(** The end of the process in the gzip branch. *)
Lemma deliver_gzip_done (u : Unarchiver) (w : World) (f : QFile) (r : ProcessResult) :
  gzipFileOf u = Some f ->
  worldOf (deliver u w (processDone r))
  = (if isFinishedWithSuccess r then w else qfileRemove (qfileClose f) w)
  /\ effectsOf (deliver u w (processDone r))
     = if isFinishedWithSuccess r then [Emit (done Success)]
       else [Emit (outputReceived "Command failed."); Emit (done Error)].
Proof.
  intros Hf. apply gzipFileOf_inv in Hf as (p & Hp & Hc).
  unfold deliver, onDone. rewrite Hp.
  cbn [withResult connections procResult]. rewrite Hc.
  destruct (isFinishedWithSuccess r); cbn [negb worldOf effectsOf fst snd]; auto.
Qed.

(** The output events of a process in the gzip branch: the file stays,
    the device stays, and when every write takes its whole chunk the
    file grows by the bytes of standard output and nothing terminal is
    emitted. *)
Lemma deliverAll_gzip_outs (f : QFile) (outs : list ProcessEvent) :
  isOpen f = true ->
  forallb (fun ev => negb (isProcessDone ev)) outs = true ->
  forall (u : Unarchiver) (w : World) (cur : list byte),
    gzipFileOf u = Some f ->
    files w !! qfileName f = Some cur ->
    gzipFileOf (selfOf (deliverAll u w outs)) = Some f
    /\ is_Some (files (worldOf (deliverAll u w outs)) !! qfileName f)
    /\ deviceWrite (worldOf (deliverAll u w outs)) = deviceWrite w
    /\ (takesAll w (qfileName f) ->
        files (worldOf (deliverAll u w outs)) !! qfileName f
        = Some (cur ++ stdoutOf outs)
        /\ countDone (effectsOf (deliverAll u w outs)) = 0).
Proof.
  intros Hopen. induction outs as [|ev outs IH]; intros Hno u w cur Hf Hcur.
  - cbn [deliverAll selfOf worldOf effectsOf fst snd stdoutOf].
    rewrite app_nil_r. repeat split; eauto.
  - cbn [forallb] in Hno. apply andb_prop in Hno as [Hev Hno].
    rewrite deliverAll_cons. cbn [selfOf worldOf effectsOf fst snd].
    destruct ev as [data|data|r]; [| |discriminate].
    + destruct (deliver_gzip_stdout u w f data Hf Hopen) as (Hf1 & Hw1 & Hout1).
      rewrite Hcur in Hw1, Hout1. cbn [default from_option] in Hw1, Hout1.
      unfold id in Hw1, Hout1.
      set (n := deviceWrite w (qfileName f) cur data) in *.
      assert (Hcur1 : files (worldOf (deliver u w (readyReadStandardOutput data)))
                        !! qfileName f = Some (cur ++ take (Z.to_nat n) data)).
      { rewrite Hw1. cbn [setFiles files]. apply lookup_insert_eq. }
      destruct (IH Hno _ _ _ Hf1 Hcur1) as (Hf2 & Hsome & Hdev & Hall).
      split; [exact Hf2|]. split; [exact Hsome|]. split.
      * rewrite Hdev, Hw1. reflexivity.
      * intros Htakes.
        assert (Hn : n = Z.of_nat (length data)) by apply Htakes.
        destruct Hall as [Hfiles Hcount].
        { intros cur' data'. rewrite Hw1. cbn [setFiles deviceWrite]. apply Htakes. }
        rewrite Hfiles, Hout1, Hn, Z.eqb_refl, Nat2Z.id, firstn_all.
        cbn [app stdoutOf]. rewrite <- app_assoc. auto.
    + destruct (deliver_gzip_stderr u w f data Hf) as (Hf1 & Hw1 & Hout1).
      rewrite Hw1, Hout1.
      destruct (IH Hno _ _ _ Hf1 Hcur) as (Hf2 & Hsome & Hdev & Hall).
      split; [exact Hf2|]. split; [exact Hsome|]. split; [exact Hdev|].
      intros Htakes. destruct (Hall Htakes) as [Hfiles Hcount].
      cbn [stdoutOf]. split; [exact Hfiles|exact Hcount].
Qed.

End Callbacks.

(** ** Executor: the raw-decompressor branch *)

Lemma ensureWritableDir_deviceWrite (d : FilePath) (w : World) :
  deviceWrite (snd (ensureWritableDir d w)) = deviceWrite w.
Proof.
  unfold ensureWritableDir.
  destruct (decide (d ∈ dirs w)); [reflexivity|].
  destruct (decide (d ∈ creatable w)); reflexivity.
Qed.

Section GzipBranch.

Context (h : Host) (u : Unarchiver) (w : World) (sc : SourceAndCommand).

Hypothesis Hidle : m_process u = None.
Hypothesis Hsc : m_sourceAndCommand u = Some sc.
Hypothesis Hdest : isEmpty (m_destDir u) = false.
Hypothesis Hgzip : fileName (executable (m_commandTemplate sc)) = "gzip".
Hypothesis Hopens :
  canOpenWriteOnly (outputPath u) (snd (ensureWritableDir (m_destDir u) w)) = true.

Let command : CommandLine :=
  unarchiveCommand (m_commandTemplate sc) (m_sourceFile sc) (m_destDir u).
Let w1 : World := snd (ensureWritableDir (m_destDir u) w).
Let outputFile : QFile := mkQFile (outputPath u) true.
Let u0 : Unarchiver :=
  setProcess u (mkProcess command (m_destDir u) false (GzipConnections outputFile) None).
Let w2 : World := setFiles w1 (<[outputPath u := []]> (files w1)).

Lemma start_gzip_spawned :
  start h u w
  = (u0, w2, [Emit (outputReceived (msgRunning h command (m_destDir u)));
              Spawn command (m_destDir u)]).
Proof.
  unfold start. rewrite Hidle, Hsc, Hdest. cbn [unarchiveCommand executable].
  rewrite Hgzip. cbn [String.eqb Ascii.eqb Bool.eqb].
  unfold qfileOpen. cbn [qfileName]. fold (outputPath u). rewrite Hopens.
  reflexivity.
Qed.

Lemma extraction_gzip (evs : list ProcessEvent) :
  extraction h u w evs
  = (selfOf (deliverAll u0 w2 evs), worldOf (deliverAll u0 w2 evs),
     [Emit (outputReceived (msgRunning h command (m_destDir u)));
      Spawn command (m_destDir u)] ++ effectsOf (deliverAll u0 w2 evs)).
Proof.
  unfold extraction. rewrite start_gzip_spawned. cbn [existsb isSpawn orb].
  now destruct (deliverAll u0 w2 evs) as [[u' w'] out].
Qed.

Variable outs : list ProcessEvent.
Variable r : ProcessResult.
Hypothesis Houts : forallb (fun ev => negb (isProcessDone ev)) outs = true.

Lemma gzip_running_facts :
  gzipFileOf (selfOf (deliverAll u0 w2 outs)) = Some outputFile
  /\ is_Some (files (worldOf (deliverAll u0 w2 outs)) !! outputPath u)
  /\ (takesAll w (outputPath u) ->
      files (worldOf (deliverAll u0 w2 outs)) !! outputPath u = Some (stdoutOf outs)
      /\ countDone (effectsOf (deliverAll u0 w2 outs)) = 0).
Proof.
  destruct (deliverAll_gzip_outs outputFile outs eq_refl Houts u0 w2 [])
    as (Hf & Hsome & _ & Htakes).
  - reflexivity.
  - apply lookup_insert_eq.
  - split; [exact Hf|]. split; [exact Hsome|].
    intros Hall. apply Htakes. intros cur data.
    unfold w2, w1. cbn [setFiles deviceWrite qfileName outputFile].
    rewrite ensureWritableDir_deviceWrite. apply Hall.
Qed.

(** The world and the effects once the process is done. *)
Lemma gzip_done_facts :
  files (worldOf (extraction h u w (lifeOf outs r)))
  = (if isFinishedWithSuccess r
     then files (worldOf (extraction h u w outs))
     else delete (outputPath u) (files (worldOf (extraction h u w outs))))
  /\ effectsOf (extraction h u w (lifeOf outs r))
     = effectsOf (extraction h u w outs)
       ++ (if isFinishedWithSuccess r then [Emit (done Success)]
           else [Emit (outputReceived "Command failed."); Emit (done Error)]).
Proof.
  rewrite !extraction_gzip. unfold lifeOf. rewrite deliverAll_app.
  cbn [worldOf effectsOf fst snd].
  destruct gzip_running_facts as (Hf & _ & _).
  rewrite deliverAll_cons. cbn [deliverAll worldOf effectsOf fst snd].
  destruct (deliver_gzip_done (selfOf (deliverAll u0 w2 outs))
              (worldOf (deliverAll u0 w2 outs)) outputFile r Hf) as [Hw Hout].
  rewrite Hw, Hout, app_nil_r. split.
  - now destruct (isFinishedWithSuccess r).
  - now rewrite app_assoc.
Qed.


End GzipBranch.






(** ** Executor: terminal events *)

Lemma countDone_app (a b : list Effect) :
  countDone (a ++ b) = countDone a + countDone b.
Proof. unfold countDone. now rewrite List.filter_app, length_app. Qed.

Lemma outputThenDone_snoc (out : list Effect) (e : Effect) :
  forallb (fun e' => negb (isDone e')) out = true ->
  outputThenDone (out ++ [e]) = true.
Proof.
  induction out as [|x out IH]; intros Hno.
  - cbn. now destruct (isDone e).
  - cbn [forallb] in Hno. apply andb_prop in Hno as [Hx Hno].
    cbn [app outputThenDone]. apply negb_true_iff in Hx. rewrite Hx. now apply IH.
Qed.

Lemma countDone_none (out : list Effect) :
  forallb (fun e' => negb (isDone e')) out = true -> countDone out = 0.
Proof.
  unfold countDone. induction out as [|x out IH]; intros Hno; [reflexivity|].
  cbn [forallb] in Hno. apply andb_prop in Hno as [Hx Hno].
  cbn [List.filter]. apply negb_true_iff in Hx. rewrite Hx. now apply IH.
Qed.

Section ArchiveBranch.

Context (h : Host) (u : Unarchiver) (w : World) (sc : SourceAndCommand).

Hypothesis Hidle : m_process u = None.
Hypothesis Hsc : m_sourceAndCommand u = Some sc.
Hypothesis Hdest : isEmpty (m_destDir u) = false.
Hypothesis Harchive : fileName (executable (m_commandTemplate sc)) <> "gzip".

Let command : CommandLine :=
  unarchiveCommand (m_commandTemplate sc) (m_sourceFile sc) (m_destDir u).
Let u0 : Unarchiver :=
  setProcess u (mkProcess command (m_destDir u) true ArchiveConnections None).
Let w1 : World := snd (ensureWritableDir (m_destDir u) w).

Lemma start_archive_spawned :
  start h u w
  = (u0, w1, [Emit (outputReceived (msgRunning h command (m_destDir u)));
              Spawn command (m_destDir u)]).
Proof.
  unfold start. rewrite Hidle, Hsc, Hdest. cbn [unarchiveCommand executable].
  destruct (String.eqb_spec (fileName (executable (m_commandTemplate sc))) "gzip")
    as [Heq|_]; [contradiction|]. reflexivity.
Qed.

Lemma deliverAll_archive_outs (outs : list ProcessEvent) :
  forallb (fun ev => negb (isProcessDone ev)) outs = true ->
  forall (v : Unarchiver) (x : World) (p : Process),
    m_process v = Some p -> connections p = ArchiveConnections ->
    (exists p', m_process (selfOf (deliverAll v x outs)) = Some p'
                /\ connections p' = ArchiveConnections)
    /\ forallb (fun e => negb (isDone e)) (effectsOf (deliverAll v x outs)) = true.
Proof.
  induction outs as [|ev outs IH]; intros Hno v x p Hp Hc.
  - cbn. eauto.
  - cbn [forallb] in Hno. apply andb_prop in Hno as [Hev Hno].
    rewrite deliverAll_cons. cbn [selfOf worldOf effectsOf fst snd].
    assert (Hstep : m_process (selfOf (deliver v x ev)) = Some p
                    /\ forallb (fun e => negb (isDone e)) (effectsOf (deliver v x ev))
                       = true).
    { unfold deliver. rewrite Hp.
      destruct ev as [data|data|r]; [| |discriminate];
        unfold onReadyReadStandardOutput, onReadyReadStandardError;
        rewrite Hc; cbn; destruct p; cbn in *; subst; auto. }
    destruct Hstep as [Hp1 Hout1].
    destruct (IH Hno _ (worldOf (deliver v x ev)) p Hp1 Hc) as [Hp2 Hout2].
    split; [exact Hp2|]. rewrite forallb_app, Hout1, Hout2. reflexivity.
Qed.

(** X8. With an archive tool, a spawned extraction emits exactly one
    terminal event, and every signal of output is emitted before it. *)
Lemma archive_one_done (outs : list ProcessEvent) (r : ProcessResult) :
  forallb (fun ev => negb (isProcessDone ev)) outs = true ->
  countDone (effectsOf (extraction h u w (lifeOf outs r))) = 1
  /\ outputThenDone (effectsOf (extraction h u w (lifeOf outs r))) = true.
Proof.
  intros Houts. unfold extraction. rewrite start_archive_spawned.
  cbn [existsb isSpawn orb]. unfold lifeOf. rewrite deliverAll_app.
  cbn [effectsOf snd].
  destruct (deliverAll_archive_outs outs Houts u0 w1
              (mkProcess command (m_destDir u) true ArchiveConnections None)
              eq_refl eq_refl) as [(p' & Hp' & Hc') Hnodone].
  set (mid := effectsOf (deliverAll u0 w1 outs)) in *.
  assert (Hlast : exists pre x,
            forallb (fun e => negb (isDone e)) pre = true
            /\ effectsOf (deliverAll (selfOf (deliverAll u0 w1 outs))
                                     (worldOf (deliverAll u0 w1 outs))
                                     [processDone r])
               = pre ++ [Emit (done x)]).
  { cbn [deliverAll]. unfold deliver, onDone. rewrite Hp'.
    cbn [withResult connections procResult]. rewrite Hc'.
    destruct (isFinishedWithSuccess r); cbn [negb effectsOf snd app].
    - exists [], Success. auto.
    - exists [Emit (outputReceived "Command failed.")], Error. auto. }
  destruct Hlast as (pre & x & Hpre & ->).
  split.
  - rewrite !countDone_app. rewrite (countDone_none mid Hnodone).
    rewrite (countDone_none pre Hpre). reflexivity.
  - rewrite !app_assoc. apply outputThenDone_snoc.
    rewrite !forallb_app, Hnodone, Hpre. reflexivity.
Qed.

End ArchiveBranch.

(** X10. With the raw decompressor, a spawned extraction whose writes all
    take their whole chunk emits exactly one terminal event as well. *)
Lemma gzip_one_done_when_writes_complete (h : Host) (u : Unarchiver) (w : World)
    (sc : SourceAndCommand) (outs : list ProcessEvent) (r : ProcessResult) :
  m_process u = None ->
  m_sourceAndCommand u = Some sc ->
  isEmpty (m_destDir u) = false ->
  fileName (executable (m_commandTemplate sc)) = "gzip" ->
  canOpenWriteOnly (outputPath u) (snd (ensureWritableDir (m_destDir u) w)) = true ->
  forallb (fun ev => negb (isProcessDone ev)) outs = true ->
  takesAll w (outputPath u) ->
  countDone (effectsOf (extraction h u w (lifeOf outs r))) = 1.
Proof.
  intros Hidle Hsc Hdest Hgzip Hopens Houts Htakes.
  destruct (gzip_done_facts h u w sc Hidle Hsc Hdest Hgzip Hopens outs r Houts)
    as [_ Hout].
  rewrite Hout, countDone_app.
  rewrite (extraction_gzip h u w sc Hidle Hsc Hdest Hgzip Hopens).
  cbn [effectsOf snd]. rewrite countDone_app.
  destruct (gzip_running_facts u w sc outs Houts) as (_ & _ & Hall).
  destruct (Hall Htakes) as [_ ->].
  now destruct (isFinishedWithSuccess r).
Qed.

(** C2.  The claim fails in the raw-decompressor branch: gzip writes two
    bytes, the device takes one, and the callback of standard output emits
    "Failed to write output file." and [done(Error)]; the process is left
    running with its callbacks connected, and when it finishes with
    success the callback of [Process::done] emits [done(Success)]: two
    terminal events for one [start()] call. *)
Theorem gzip_short_write_two_done :
  effectsOf (extraction Sample.bareHost (Sample.gzipUnarchiver "/out") (Sample.smallDisk 1)
                        (lifeOf [readyReadStandardOutput [x61; x62]%byte]
                                FinishedWithSuccess))
  = [Emit (outputReceived
             (msgRunning Sample.bareHost
                (mkCommandLine "/usr/bin/gzip" ["-d"; "/tmp/data.gz"; "-c"]) "/out"));
     Spawn (mkCommandLine "/usr/bin/gzip" ["-d"; "/tmp/data.gz"; "-c"]) "/out";
     Emit (outputReceived "Failed to write output file.");
     Emit (done Error);
     Emit (done Success)]
  /\ countDone
       (effectsOf (extraction Sample.bareHost (Sample.gzipUnarchiver "/out")
                              (Sample.smallDisk 1)
                              (lifeOf [readyReadStandardOutput [x61; x62]%byte]
                                      FinishedWithSuccess))) = 2
  /\ outputThenDone
       (effectsOf (extraction Sample.bareHost (Sample.gzipUnarchiver "/out")
                              (Sample.smallDisk 1)
                              (lifeOf [readyReadStandardOutput [x61; x62]%byte]
                                      FinishedWithSuccess))) = false.
Proof. repeat split; vm_compute; reflexivity. Qed.

(** * Further properties *)

(** ** Resolver: the two failures and the last resort *)

Lemma filter_nil_iff {A : Type} (p : A -> bool) (l : list A) :
  List.filter p l = [] <-> Forall (fun x => p x = false) l.
Proof.
  induction l as [|a l IH]; simpl.
  - split; auto.
  - destruct (p a) eqn:Hp.
    + split; [discriminate|]. intros Hall. inversion Hall; congruence.
    + rewrite IH. split; [auto|]. intros Hall. now inversion Hall.
Qed.

Lemma firstResolved_app (h : Host) (l1 l2 : list Tool) :
  firstResolved h (l1 ++ l2)
  = match firstResolved h l1 with
    | Some r => Some r
    | None => firstResolved h l2
    end.
Proof.
  induction l1 as [|a l1 IH]; [reflexivity|].
  cbn [app firstResolved]. now destruct (resolveTool h a).
Qed.

Lemma firstResolved_filter_Exists (h : Host) (p : Tool -> bool) (l : list Tool) :
  Exists (fun t => p t = true /\ resolveTool h t <> None) l ->
  exists r, firstResolved h (List.filter p l) = Some r.
Proof.
  intros Hex.
  destruct (firstResolved h (List.filter p l)) as [r|] eqn:Hf; [eauto|].
  exfalso. apply firstResolved_None in Hf. rewrite List.Forall_forall in Hf.
  apply List.Exists_exists in Hex as (t & Hin & Hp & Hres).
  apply Hres, Hf, List.filter_In. auto.
Qed.

(** X1. [sourceAndCommand] fails with "File format not supported." exactly
    when no catalog entry supports the detected MIME type. *)
Theorem sourceAndCommand_unsupported_iff (h : Host) (sourceFile : FilePath) :
  sourceAndCommand h sourceFile = inl msgUnsupportedFormat <->
  Forall (fun t => supportsMimeType (mimeTypeForFile h sourceFile) t = false) (sTools h).
Proof.
  rewrite <- filter_nil_iff.
  unfold sourceAndCommand, toolsForFilePath, toolsForMimeType.
  destruct (List.filter _ (sTools h)) as [|t ts]; [tauto|].
  split; [|discriminate].
  destruct (firstResolved h (t :: ts)); [discriminate|].
  intros Heq. exfalso.
  apply (msgNoExecutableFound_not_unsupported (attemptedExecs h (t :: ts))).
  congruence.
Qed.

(** X2. [sourceAndCommand] fails (with either message) exactly when no
    catalog entry that supports the detected MIME type resolves to an
    executable. *)
Theorem sourceAndCommand_fails_iff (h : Host) (sourceFile : FilePath) :
  (exists msg, sourceAndCommand h sourceFile = inl msg) <->
  Forall (fun t => supportsMimeType (mimeTypeForFile h sourceFile) t = true ->
                   resolveTool h t = None) (sTools h).
Proof.
  assert (Hnone : firstResolved h (toolsForFilePath h sourceFile) = None <->
                  Forall (fun t => supportsMimeType (mimeTypeForFile h sourceFile) t = true ->
                                   resolveTool h t = None) (sTools h)).
  { rewrite firstResolved_None. unfold toolsForFilePath, toolsForMimeType.
    rewrite !List.Forall_forall. split.
    - intros Hall t Hin Hp. apply Hall, List.filter_In. auto.
    - intros Hall t Hin. apply List.filter_In in Hin as [Hin Hp]. auto. }
  rewrite <- Hnone. split.
  - intros [msg Hmsg].
    destruct (firstResolved h (toolsForFilePath h sourceFile)) as [r|] eqn:Hf;
      [|reflexivity].
    assert (Hinr : sourceAndCommand h sourceFile
                   = inr (mkSourceAndCommand sourceFile (command r)))
      by (apply sourceAndCommand_inr; eauto).
    congruence.
  - intros Hf. unfold sourceAndCommand. rewrite Hf.
    destruct (toolsForFilePath h sourceFile); eauto.
Qed.

(** X4. gzip is the last resort: whenever a catalog entry in front of it
    supports the detected MIME type and resolves, the command returned is
    the resolved command of such an entry, not the one of gzip. *)
Theorem gzip_last_resort (h : Host) (sourceFile : FilePath) :
  Exists (fun t => supportsMimeType (mimeTypeForFile h sourceFile) t = true
                   /\ resolveTool h t <> None) (archiveTools h) ->
  exists t r,
    In t (archiveTools h)
    /\ executable (command t) <> "gzip"
    /\ supportsMimeType (mimeTypeForFile h sourceFile) t = true
    /\ resolveTool h t = Some r
    /\ sourceAndCommand h sourceFile = inr (mkSourceAndCommand sourceFile (command r)).
Proof.
  intros Hex.
  apply firstResolved_filter_Exists in Hex as [r Hr].
  pose proof Hr as Hsplit.
  apply firstResolved_filter in Hsplit as (l1 & t & l2 & Hl & _ & Hp & Hres).
  assert (Hin : In t (archiveTools h)).
  { rewrite Hl. apply List.in_or_app. right. now left. }
  exists t, r. split; [exact Hin|].
  split; [now apply (archiveTools_not_gzip h)|].
  split; [exact Hp|]. split; [exact Hres|].
  apply sourceAndCommand_inr. exists r. split; [|reflexivity].
  unfold toolsForFilePath, toolsForMimeType, sTools.
  rewrite List.filter_app, firstResolved_app, Hr. reflexivity.
Qed.

Lemma gzip_last_resort_witness :
  exists t r,
    In t (archiveTools Sample.tarAndGzipHost)
    /\ executable (command t) <> "gzip"
    /\ supportsMimeType (mimeTypeForFile Sample.tarAndGzipHost "archive.tar.gz") t = true
    /\ resolveTool Sample.tarAndGzipHost t = Some r
    /\ sourceAndCommand Sample.tarAndGzipHost "archive.tar.gz"
       = inr (mkSourceAndCommand "archive.tar.gz" (command r)).
Proof.
  apply (gzip_last_resort Sample.tarAndGzipHost "archive.tar.gz").
  apply List.Exists_exists.
  exists (mkTool (mkCommandLine "tar" ["xvzf"; "%{src}"]) ["application/x-compressed-tar"] []).
  split; [|split; [reflexivity|discriminate]].
  simpl. tauto.
Defined.

(** ** Command builder: what rendering keeps, and resolved templates *)

Lemma string_app_nil_r (s : string) : s +:+ "" = s.
Proof.
  induction s as [|c s IH]; [reflexivity|].
  rewrite string_app_cons. now rewrite IH.
Qed.

Lemma renderArg_percentFree (sourceFile destDir : FilePath) (arg : string) :
  QStr.percentFree arg = true -> renderArg sourceFile destDir arg = arg.
Proof.
  intros Hfree. unfold renderArg, QStr.replace.
  rewrite <- (string_app_nil_r arg) at 1.
  rewrite replace_src_literal by exact Hfree.
  cbn [QStr.replace_from].
  rewrite replace_dest_literal by exact Hfree.
  cbn [QStr.replace_from]. apply string_app_nil_r.
Qed.

Lemma render_tokens (sourceFile destDir : FilePath) (tokens : list (list Piece)) :
  QStr.percentFree (path sourceFile) = true ->
  forallb literalsPercentFree tokens = true ->
  List.map (renderArg sourceFile destDir) (List.map templateText tokens)
  = List.map (instantiate (path sourceFile) (path destDir)) tokens.
Proof.
  intros Hsrc. induction tokens as [|ps tokens IH]; intros Hlit; [reflexivity|].
  cbn [forallb] in Hlit. apply andb_prop in Hlit as [Hps Hrest].
  cbn [List.map]. rewrite renderArg_pieces by assumption. now rewrite IH.
Qed.

Lemma instantiate_mentions (src dest : string) (ps : list Piece) :
  mentionsSrc ps = true ->
  exists pre post, instantiate src dest ps = pre +:+ src +:+ post.
Proof.
  unfold mentionsSrc. induction ps as [|p ps IH]; intros Hm; [discriminate|].
  cbn [existsb] in Hm. cbn [instantiate].
  destruct p as [text| |]; cbn [pieceValue].
  - destruct (IH Hm) as (pre & post & ->).
    exists (text +:+ pre), post. now rewrite string_app_assoc.
  - exists "", (instantiate src dest ps). reflexivity.
  - destruct (IH Hm) as (pre & post & ->).
    exists (dest +:+ pre), post. now rewrite string_app_assoc.
Qed.

Lemma instantiate_all_clean (src dest : string) (tokens : list (list Piece)) :
  QStr.percentFree src = true ->
  QStr.percentFree dest = true ->
  forallb literalsPercentFree tokens = true ->
  Forall (fun arg => QStr.contains "%{src}" arg = false
                     /\ QStr.contains "%{dest}" arg = false)
         (List.map (instantiate src dest) tokens).
Proof.
  intros Hsrc Hdest. induction tokens as [|ps tokens IH]; intros Hlit; [constructor|].
  cbn [forallb] in Hlit. apply andb_prop in Hlit as [Hps Hrest].
  cbn [List.map]. constructor; [|now apply IH].
  split; apply percentFree_no_placeholder; now apply instantiate_percentFree.
Qed.

(** Every catalog entry names the source file in one of its tokens. *)
Lemma sTools_mention_src (h : Host) (t : Tool) :
  In t (sTools h) ->
  existsb mentionsSrc (List.map (parsePieces 0) (splitArguments (command t))) = true.
Proof.
  unfold sTools, archiveTools. intros Hin.
  apply List.in_app_or in Hin as [Hin|[<-|[]]]; [|reflexivity].
  apply List.in_app_or in Hin as [Hin|Hin].
  - destruct (isWindowsHost h); simpl in Hin; [|tauto].
    destruct Hin as [<-|[]]. reflexivity.
  - simpl in Hin.
    repeat (destruct Hin as [<-|Hin]; [reflexivity|]). destruct Hin.
Qed.

(** X12. Rendering keeps the executable and the number of arguments, and
    passes every argument without ['%'] through unchanged, whatever the
    two paths are. *)
Theorem unarchiveCommand_passthrough (commandTemplate : CommandLine)
    (sourceFile destDir : FilePath) :
  executable (unarchiveCommand commandTemplate sourceFile destDir)
  = executable commandTemplate
  /\ length (splitArguments (unarchiveCommand commandTemplate sourceFile destDir))
     = length (splitArguments commandTemplate)
  /\ forall i arg,
       nth_error (splitArguments commandTemplate) i = Some arg ->
       QStr.percentFree arg = true ->
       nth_error (splitArguments (unarchiveCommand commandTemplate sourceFile destDir)) i
       = Some arg.
Proof.
  unfold unarchiveCommand. cbn [executable splitArguments].
  split; [reflexivity|]. split; [apply List.length_map|].
  intros i arg Hnth Hfree.
  rewrite (List.map_nth_error _ _ _ Hnth).
  now rewrite renderArg_percentFree.
Qed.

(** X3. Resolution and rendering together: the command template that
    [sourceAndCommand] returns, rendered for source and destination paths
    without ['%'], has a non-empty executable, holds no placeholder, and
    names the source path in one of its arguments. *)
Theorem resolved_command_renders_clean (h : Host) (sourceFile destDir : FilePath)
    (sc : SourceAndCommand) :
  sourceAndCommand h sourceFile = inr sc ->
  QStr.percentFree (path sourceFile) = true ->
  QStr.percentFree (path destDir) = true ->
  isEmpty (executable (unarchiveCommand (m_commandTemplate sc) (m_sourceFile sc) destDir))
  = false
  /\ Forall (fun arg => QStr.contains "%{src}" arg = false
                        /\ QStr.contains "%{dest}" arg = false)
            (splitArguments
               (unarchiveCommand (m_commandTemplate sc) (m_sourceFile sc) destDir))
  /\ Exists (fun arg => exists pre post, arg = pre +:+ path sourceFile +:+ post)
            (splitArguments
               (unarchiveCommand (m_commandTemplate sc) (m_sourceFile sc) destDir)).
Proof.
  intros Hres Hsrc Hdest.
  apply sourceAndCommand_inr in Hres as (r & Hr & ->).
  apply firstResolved_filter in Hr as (l1 & t & l2 & Hl & _ & _ & Hrt).
  assert (Hin : In t (sTools h)).
  { rewrite Hl. apply List.in_or_app. right. now left. }
  apply resolveTool_Some in Hrt as [Hfound ->].
  destruct (sTools_templates h t Hin) as [Hlit Htext].
  pose proof (sTools_mention_src h t Hin) as Hment.
  unfold unarchiveCommand.
  cbn [m_commandTemplate m_sourceFile command executable splitArguments].
  split; [exact Hfound|].
  rewrite <- Htext, render_tokens by assumption.
  set (tokens := List.map (parsePieces 0) (splitArguments (command t))) in *.
  clearbody tokens. clear Htext. split.
  - now apply instantiate_all_clean.
  - clear Hlit. induction tokens as [|ps tokens IH]; [discriminate|].
    cbn [existsb] in Hment. cbn [List.map].
    destruct (mentionsSrc ps) eqn:Hps.
    + apply List.Exists_cons_hd. now apply instantiate_mentions.
    + apply List.Exists_cons_tl. now apply IH.
Qed.

Lemma resolved_command_renders_clean_witness :
  sourceAndCommand Sample.zipHost "/tmp/archive.zip"
  = inr (mkSourceAndCommand "/tmp/archive.zip"
           (mkCommandLine "/usr/bin/unzip" ["-o"; "%{src}"; "-d"; "%{dest}"]))
  /\ Forall (fun arg => QStr.contains "%{src}" arg = false
                        /\ QStr.contains "%{dest}" arg = false)
            ["-o"; "/tmp/archive.zip"; "-d"; "/out"].
Proof.
  split; [reflexivity|].
  exact (proj1 (proj2
    (resolved_command_renders_clean Sample.zipHost "/tmp/archive.zip" "/out"
       (mkSourceAndCommand "/tmp/archive.zip"
          (mkCommandLine "/usr/bin/unzip" ["-o"; "%{src}"; "-d"; "%{dest}"]))
       eq_refl eq_refl eq_refl))).
Defined.

(** ** Executor: what [start()] leaves behind *)

Lemma ensureWritableDir_files (d : FilePath) (w : World) :
  files (snd (ensureWritableDir d w)) = files w.
Proof.
  unfold ensureWritableDir.
  destruct (decide (d ∈ dirs w)); [reflexivity|].
  destruct (decide (d ∈ creatable w)); reflexivity.
Qed.

Lemma ensureWritableDir_dirs (d : FilePath) (w : World) :
  dirs w ⊆ dirs (snd (ensureWritableDir d w))
  /\ (d ∈ dirs w \/ d ∈ creatable w -> d ∈ dirs (snd (ensureWritableDir d w))).
Proof.
  unfold ensureWritableDir.
  destruct (decide (d ∈ dirs w)) as [Hin|Hnot]; [cbn; split; [set_solver|auto]|].
  destruct (decide (d ∈ creatable w)) as [Hc|Hnc]; cbn.
  - split; [apply union_subseteq_r|].
    intros _. apply elem_of_union_l. now apply elem_of_singleton_2.
  - split; [set_solver|]. intros [H|H]; contradiction.
Qed.

(** When [start()] spawns, the instance was idle, source and destination
    were set, and either the tool is not gzip or the output file opened. *)
Lemma start_spawned_inv (h : Host) (u : Unarchiver) (w : World) :
  existsb isSpawn (effectsOf (start h u w)) = true ->
  m_process u = None
  /\ exists sc,
       m_sourceAndCommand u = Some sc
       /\ isEmpty (m_destDir u) = false
       /\ ((fileName (executable (m_commandTemplate sc)) = "gzip"
            /\ canOpenWriteOnly (outputPath u) (snd (ensureWritableDir (m_destDir u) w))
               = true)
           \/ fileName (executable (m_commandTemplate sc)) <> "gzip").
Proof.
  unfold start.
  destruct (m_process u) as [p|]; [discriminate|].
  destruct (m_sourceAndCommand u) as [sc|]; [|discriminate].
  destruct (isEmpty (m_destDir u)) eqn:Hdest; [discriminate|].
  cbn [unarchiveCommand executable].
  destruct (String.eqb_spec (fileName (executable (m_commandTemplate sc))) "gzip")
    as [Hgzip|Harchive].
  - unfold qfileOpen. cbn [qfileName]. fold (outputPath u).
    destruct (canOpenWriteOnly (outputPath u) (snd (ensureWritableDir (m_destDir u) w)))
      eqn:Hopen; [|discriminate].
    intros _. split; [reflexivity|]. exists sc. auto.
  - intros _. split; [reflexivity|]. exists sc. auto.
Qed.

(** X5. The two outcomes of [start()].  When it spawns no process, the
    instance is left as it was, no file is touched, and exactly one
    terminal event is emitted, [done(Error)], as the last signal.  When it
    spawns a process, the instance was idle and now owns the process, and
    [start()] itself emits no terminal event. *)
Theorem start_outcome (h : Host) (u : Unarchiver) (w : World) :
  (existsb isSpawn (effectsOf (start h u w)) = false ->
   selfOf (start h u w) = u
   /\ files (worldOf (start h u w)) = files w
   /\ countDone (effectsOf (start h u w)) = 1
   /\ exists pre, effectsOf (start h u w) = pre ++ [Emit (done Error)])
  /\ (existsb isSpawn (effectsOf (start h u w)) = true ->
      m_process u = None
      /\ is_Some (m_process (selfOf (start h u w)))
      /\ countDone (effectsOf (start h u w)) = 0).
Proof.
  unfold start.
  destruct (m_process u) as [p|] eqn:Hp.
  { split; [|discriminate]. intros _. repeat split.
    exists [AssertFailed "!m_process"]. reflexivity. }
  destruct (m_sourceAndCommand u) as [sc|].
  2:{ split; [|discriminate]. intros _. repeat split.
      exists [Emit (outputReceived "No source file set.")]. reflexivity. }
  destruct (isEmpty (m_destDir u)).
  { split; [|discriminate]. intros _. repeat split.
    exists [Emit (outputReceived "No destination directory set.")]. reflexivity. }
  cbn [unarchiveCommand executable].
  destruct (String.eqb (fileName (executable (m_commandTemplate sc))) "gzip").
  - unfold qfileOpen. cbn [qfileName].
    destruct (canOpenWriteOnly _ _).
    + split; [discriminate|]. intros _. cbn. repeat split; eauto.
    + split; [|discriminate]. intros _.
      cbn [negb failWith selfOf worldOf effectsOf fst snd].
      rewrite ensureWritableDir_files. repeat split.
      exists [Emit (outputReceived "Failed to open output file.")]. reflexivity.
  - split; [discriminate|]. intros _. cbn. repeat split; eauto.
Qed.

(** X13. The destination directory is made before anything can fail:
    once source and destination are set on an idle instance, [start()]
    leaves every directory in place and, when the destination exists or
    can be created, leaves it existing, also when it then fails to open
    the output file. *)
Theorem start_creates_destination (h : Host) (u : Unarchiver) (w : World)
    (sc : SourceAndCommand) :
  m_process u = None ->
  m_sourceAndCommand u = Some sc ->
  isEmpty (m_destDir u) = false ->
  dirs w ⊆ dirs (worldOf (start h u w))
  /\ (m_destDir u ∈ dirs w \/ m_destDir u ∈ creatable w ->
      m_destDir u ∈ dirs (worldOf (start h u w))).
Proof.
  intros Hidle Hsc Hdest.
  assert (Hw : dirs (worldOf (start h u w))
               = dirs (snd (ensureWritableDir (m_destDir u) w))).
  { unfold start. rewrite Hidle, Hsc, Hdest. cbn [unarchiveCommand executable].
    destruct (String.eqb (fileName (executable (m_commandTemplate sc))) "gzip");
      [|reflexivity].
    unfold qfileOpen. cbn [qfileName].
    destruct (canOpenWriteOnly _ _); reflexivity. }
  rewrite Hw. apply ensureWritableDir_dirs.
Qed.

Lemma start_creates_destination_witness :
  "/new" ∈ dirs (worldOf (start Sample.bareHost (Sample.gzipUnarchiver "/new")
                                Sample.stuckWorld))
  /\ effectsOf (start Sample.bareHost (Sample.gzipUnarchiver "/new") Sample.stuckWorld)
     = [Emit (outputReceived "Failed to open output file."); Emit (done Error)].
Proof.
  split; [|reflexivity].
  apply (proj2 (start_creates_destination Sample.bareHost (Sample.gzipUnarchiver "/new")
                  Sample.stuckWorld
                  (mkSourceAndCommand "/tmp/data.gz"
                     (mkCommandLine "/usr/bin/gzip" ["-d"; "%{src}"; "-c"]))
                  eq_refl eq_refl eq_refl)).
  right. unfold Sample.stuckWorld. cbn [creatable Sample.gzipUnarchiver m_destDir].
  now apply elem_of_singleton_2.
Defined.

(** ** Executor: one instance, one extraction *)

Lemma extraction_spawned (h : Host) (u : Unarchiver) (w : World) (evs : list ProcessEvent) :
  existsb isSpawn (effectsOf (start h u w)) = true ->
  extraction h u w evs
  = (selfOf (deliverAll (selfOf (start h u w)) (worldOf (start h u w)) evs),
     worldOf (deliverAll (selfOf (start h u w)) (worldOf (start h u w)) evs),
     effectsOf (start h u w)
     ++ effectsOf (deliverAll (selfOf (start h u w)) (worldOf (start h u w)) evs)).
Proof.
  unfold extraction. destruct (start h u w) as [[u1 w1] out1].
  cbn [selfOf worldOf effectsOf fst snd]. intros ->.
  now destruct (deliverAll u1 w1 evs) as [[u2 w2] out2].
Qed.

Lemma extraction_not_spawned (h : Host) (u : Unarchiver) (w : World)
    (evs : list ProcessEvent) :
  existsb isSpawn (effectsOf (start h u w)) = false ->
  extraction h u w evs = start h u w.
Proof.
  unfold extraction. destruct (start h u w) as [[u1 w1] out1].
  cbn [effectsOf snd]. now intros ->.
Qed.

Lemma deliver_keeps_process (u : Unarchiver) (w : World) (ev : ProcessEvent) :
  is_Some (m_process u) -> is_Some (m_process (selfOf (deliver u w ev))).
Proof.
  intros [p Hp]. unfold deliver. rewrite Hp.
  destruct ev as [data|data|r].
  - destruct (onReadyReadStandardOutput p data w) as [[p' w'] out]. cbn. eauto.
  - destruct (onReadyReadStandardError p data w) as [[p' w'] out]. cbn. eauto.
  - destruct (onDone (withResult p r) w) as [[p' w'] out]. cbn. eauto.
Qed.

Lemma deliverAll_keeps_process (evs : list ProcessEvent) (u : Unarchiver) (w : World) :
  is_Some (m_process u) -> is_Some (m_process (selfOf (deliverAll u w evs))).
Proof.
  revert u w. induction evs as [|ev evs IH]; intros u w Hp; [exact Hp|].
  rewrite deliverAll_cons. cbn [selfOf fst]. apply IH.
  now apply deliver_keeps_process.
Qed.

(** X6. An instance runs one extraction: once [start()] has spawned a
    process, whatever the process delivers (also its end), a further
    [start()] in any state of the file system fails the assertion, emits
    [done(Error)] and changes nothing; [m_process] is never given up. *)
Theorem unarchiver_single_use (h : Host) (u : Unarchiver) (w : World)
    (evs : list ProcessEvent) (w' : World) :
  existsb isSpawn (effectsOf (start h u w)) = true ->
  start h (selfOf (extraction h u w evs)) w'
  = (selfOf (extraction h u w evs), w', [AssertFailed "!m_process"; Emit (done Error)]).
Proof.
  intros Hspawn.
  assert (Hsome : is_Some (m_process (selfOf (extraction h u w evs)))).
  { rewrite extraction_spawned by exact Hspawn. cbn [selfOf fst].
    apply deliverAll_keeps_process.
    unfold start in *.
    destruct (m_process u); [discriminate|].
    destruct (m_sourceAndCommand u) as [sc|]; [|discriminate].
    destruct (isEmpty (m_destDir u)); [discriminate|].
    cbn [unarchiveCommand executable] in *.
    destruct (String.eqb (fileName (executable (m_commandTemplate sc))) "gzip").
    - unfold qfileOpen in *. cbn [qfileName] in *.
      destruct (canOpenWriteOnly _ _); [cbn; eauto|discriminate].
    - cbn. eauto. }
  destruct Hsome as [p Hp]. unfold start. now rewrite Hp.
Qed.

Lemma unarchiver_single_use_witness :
  effectsOf
    (start Sample.bareHost
       (selfOf (extraction Sample.bareHost (Sample.unzipUnarchiver "/out") Sample.world0
                           (lifeOf [] FinishedWithSuccess)))
       Sample.world0)
  = [AssertFailed "!m_process"; Emit (done Error)].
Proof.
  exact (f_equal effectsOf
    (unarchiver_single_use Sample.bareHost (Sample.unzipUnarchiver "/out") Sample.world0
       (lifeOf [] FinishedWithSuccess) Sample.world0 eq_refl)).
Defined.

(** ** Executor: what the archive branch forwards *)

Lemma deliver_archive (v : Unarchiver) (x : World) (ev : ProcessEvent) (p : Process) :
  m_process v = Some p -> connections p = ArchiveConnections ->
  worldOf (deliver v x ev) = x
  /\ (exists p', m_process (selfOf (deliver v x ev)) = Some p'
                 /\ connections p' = ArchiveConnections)
  /\ effectsOf (deliver v x ev)
     = match ev with
       | readyReadStandardOutput data =>
           [Emit (outputReceived (string_of_list_byte data))]
       | readyReadStandardError _ => []
       | processDone r => finalSignals r
       end.
Proof.
  intros Hp Hc. unfold deliver. rewrite Hp.
  destruct ev as [data|data|r].
  - unfold onReadyReadStandardOutput. rewrite Hc. cbn. eauto.
  - unfold onReadyReadStandardError. rewrite Hc. cbn. eauto.
  - unfold onDone, finalSignals. cbn [withResult connections procResult]. rewrite Hc.
    destruct (isFinishedWithSuccess r); cbn; split; eauto.
Qed.

Lemma deliverAll_archive (outs : list ProcessEvent) :
  forallb (fun ev => negb (isProcessDone ev)) outs = true ->
  forall (v : Unarchiver) (x : World) (p : Process),
    m_process v = Some p -> connections p = ArchiveConnections ->
    worldOf (deliverAll v x outs) = x
    /\ (exists p', m_process (selfOf (deliverAll v x outs)) = Some p'
                   /\ connections p' = ArchiveConnections)
    /\ effectsOf (deliverAll v x outs) = archiveForwarded outs.
Proof.
  induction outs as [|ev outs IH]; intros Hno v x p Hp Hc.
  - cbn. eauto.
  - cbn [forallb] in Hno. apply andb_prop in Hno as [Hev Hno].
    rewrite deliverAll_cons. cbn [selfOf worldOf effectsOf fst snd].
    destruct (deliver_archive v x ev p Hp Hc) as (Hw & (p1 & Hp1 & Hc1) & Hout).
    rewrite Hw, Hout.
    destruct (IH Hno _ x p1 Hp1 Hc1) as (Hw2 & Hp2 & Hout2).
    rewrite Hout2. split; [exact Hw2|]. split; [exact Hp2|].
    destruct ev as [data|data|r]; [reflexivity|reflexivity|discriminate].
Qed.

(** The world and the effects of a spawned extraction with an archive
    tool, before and after the end of the process. *)
Lemma extraction_archive (h : Host) (u : Unarchiver) (w : World) (sc : SourceAndCommand)
    (outs : list ProcessEvent) :
  m_process u = None ->
  m_sourceAndCommand u = Some sc ->
  isEmpty (m_destDir u) = false ->
  fileName (executable (m_commandTemplate sc)) <> "gzip" ->
  forallb (fun ev => negb (isProcessDone ev)) outs = true ->
  let command :=
    unarchiveCommand (m_commandTemplate sc) (m_sourceFile sc) (m_destDir u) in
  (effectsOf (extraction h u w outs)
   = [Emit (outputReceived (msgRunning h command (m_destDir u)));
      Spawn command (m_destDir u)] ++ archiveForwarded outs)
  /\ forall r,
       worldOf (extraction h u w (lifeOf outs r)) = snd (ensureWritableDir (m_destDir u) w)
       /\ effectsOf (extraction h u w (lifeOf outs r))
          = effectsOf (extraction h u w outs) ++ finalSignals r.
Proof.
  intros Hidle Hsc Hdest Harchive Houts command.
  pose proof (start_archive_spawned h u w sc Hidle Hsc Hdest Harchive) as Hstart.
  fold command in Hstart.
  unfold extraction. rewrite Hstart. cbn [existsb isSpawn orb].
  set (u0 := setProcess u (mkProcess command (m_destDir u) true ArchiveConnections None)).
  set (w1 := snd (ensureWritableDir (m_destDir u) w)).
  destruct (deliverAll_archive outs Houts u0 w1
              (mkProcess command (m_destDir u) true ArchiveConnections None)
              eq_refl eq_refl) as (Hw & (p' & Hp' & Hc') & Hout).
  split.
  - destruct (deliverAll u0 w1 outs) as [[u2 w2] out2].
    cbn [effectsOf snd] in *. now rewrite Hout.
  - intros r. unfold lifeOf. rewrite deliverAll_app.
    rewrite (deliverAll_cons _ _ (processDone r) []).
    cbn [deliverAll selfOf worldOf effectsOf fst snd].
    destruct (deliver_archive (selfOf (deliverAll u0 w1 outs))
                (worldOf (deliverAll u0 w1 outs)) (processDone r) p' Hp' Hc')
      as (Hw3 & _ & Hout3).
    rewrite Hw3, Hout3, Hw, app_nil_r.
    destruct (deliverAll u0 w1 outs) as [[u2 w2] out2].
    cbn [effectsOf snd]. split; [reflexivity|]. now rewrite app_assoc.
Qed.

(** X7. With a tool whose file name is not [gzip] (so also with a gzip
    found as [gzip.exe]), a spawned extraction emits the running message,
    one [outputReceived] per chunk of the merged output in the order of
    arrival, and the signals of the end; the executor itself writes no
    file: the file system is as [ensureWritableDir] left it. *)
Theorem archive_branch_forwarding (h : Host) (u : Unarchiver) (w : World)
    (sc : SourceAndCommand) (outs : list ProcessEvent) (r : ProcessResult) :
  m_process u = None ->
  m_sourceAndCommand u = Some sc ->
  isEmpty (m_destDir u) = false ->
  fileName (executable (m_commandTemplate sc)) <> "gzip" ->
  forallb (fun ev => negb (isProcessDone ev)) outs = true ->
  let command :=
    unarchiveCommand (m_commandTemplate sc) (m_sourceFile sc) (m_destDir u) in
  effectsOf (extraction h u w (lifeOf outs r))
  = [Emit (outputReceived (msgRunning h command (m_destDir u)));
     Spawn command (m_destDir u)]
    ++ archiveForwarded outs ++ finalSignals r
  /\ worldOf (extraction h u w (lifeOf outs r)) = snd (ensureWritableDir (m_destDir u) w)
  /\ files (worldOf (extraction h u w (lifeOf outs r))) = files w.
Proof.
  intros Hidle Hsc Hdest Harchive Houts command.
  destruct (extraction_archive h u w sc outs Hidle Hsc Hdest Harchive Houts)
    as [Hrun Hend].
  destruct (Hend r) as [Hw Hout].
  rewrite Hw, Hout, Hrun, ensureWritableDir_files.
  fold command. rewrite <- app_assoc. auto.
Qed.

Lemma archive_branch_forwarding_witness :
  effectsOf (extraction Sample.bareHost (Sample.gzipExeUnarchiver "/out") Sample.world0
                        (lifeOf [readyReadStandardOutput [x68; x69]%byte]
                                FinishedWithSuccess))
  = [Emit (outputReceived
             (msgRunning Sample.bareHost
                (mkCommandLine "C:/tools/gzip.exe" ["-d"; "/tmp/data.gz"; "-c"]) "/out"));
     Spawn (mkCommandLine "C:/tools/gzip.exe" ["-d"; "/tmp/data.gz"; "-c"]) "/out";
     Emit (outputReceived "hi");
     Emit (done Success)]
  /\ files (worldOf (extraction Sample.bareHost (Sample.gzipExeUnarchiver "/out")
                                Sample.world0
                                (lifeOf [readyReadStandardOutput [x68; x69]%byte]
                                        FinishedWithSuccess)))
     = ∅.
Proof.
  destruct (archive_branch_forwarding Sample.bareHost (Sample.gzipExeUnarchiver "/out")
              Sample.world0
              (mkSourceAndCommand "/tmp/data.gz"
                 (mkCommandLine "C:/tools/gzip.exe" ["-d"; "%{src}"; "-c"]))
              [readyReadStandardOutput [x68; x69]%byte] FinishedWithSuccess
              eq_refl eq_refl eq_refl) as (Hout & _ & Hfiles).
  - discriminate.
  - reflexivity.
  - split; [exact Hout|exact Hfiles].
Defined.

Lemma archive_one_done_witness :
  countDone
    (effectsOf (extraction Sample.bareHost (Sample.unzipUnarchiver "/out") Sample.world0
                           (lifeOf [readyReadStandardOutput [x68; x69]%byte]
                                   FinishedWithError))) = 1
  /\ outputThenDone
       (effectsOf (extraction Sample.bareHost (Sample.unzipUnarchiver "/out") Sample.world0
                              (lifeOf [readyReadStandardOutput [x68; x69]%byte]
                                      FinishedWithError))) = true.
Proof.
  apply (archive_one_done Sample.bareHost (Sample.unzipUnarchiver "/out") Sample.world0
           (mkSourceAndCommand "/tmp/a.zip"
              (mkCommandLine "/usr/bin/unzip" ["-o"; "%{src}"; "-d"; "%{dest}"]))
           eq_refl eq_refl eq_refl).
  - discriminate.
  - reflexivity.
Defined.

Lemma gzip_one_done_when_writes_complete_witness :
  countDone
    (effectsOf (extraction Sample.bareHost (Sample.gzipUnarchiver "/out") Sample.world0
                           (lifeOf [readyReadStandardOutput [x61; x62]%byte]
                                   FinishedWithSuccess))) = 1.
Proof.
  apply (gzip_one_done_when_writes_complete Sample.bareHost (Sample.gzipUnarchiver "/out")
           Sample.world0
           (mkSourceAndCommand "/tmp/data.gz"
              (mkCommandLine "/usr/bin/gzip" ["-d"; "%{src}"; "-c"]))
           [readyReadStandardOutput [x61; x62]%byte] FinishedWithSuccess
           eq_refl eq_refl eq_refl eq_refl eq_refl eq_refl).
  intros cur data. reflexivity.
Defined.

(** ** Executor: what the gzip branch forwards *)

Lemma deliverAll_gzip_forwarded (f : QFile) (outs : list ProcessEvent) :
  isOpen f = true ->
  forallb (fun ev => negb (isProcessDone ev)) outs = true ->
  forall (v : Unarchiver) (x : World),
    gzipFileOf v = Some f ->
    takesAll x (qfileName f) ->
    effectsOf (deliverAll v x outs) = gzipForwarded outs.
Proof.
  intros Hopen. induction outs as [|ev outs IH]; intros Hno v x Hf Htakes;
    [reflexivity|].
  cbn [forallb] in Hno. apply andb_prop in Hno as [Hev Hno].
  rewrite deliverAll_cons. cbn [effectsOf snd].
  destruct ev as [data|data|r]; [| |discriminate].
  - destruct (deliver_gzip_stdout v x f data Hf Hopen) as (Hf1 & Hw1 & Hout1).
    rewrite Hout1, Htakes, Z.eqb_refl. cbn [app gzipForwarded].
    apply IH; [exact Hno|exact Hf1|].
    intros cur data'. rewrite Hw1. cbn [setFiles deviceWrite]. apply Htakes.
  - destruct (deliver_gzip_stderr v x f data Hf) as (Hf1 & Hw1 & Hout1).
    rewrite Hout1, Hw1. cbn [app gzipForwarded]. f_equal.
    now apply IH.
Qed.

(** X9. In the raw-decompressor branch, when every write takes its whole
    chunk, a spawned extraction emits the running message, one
    [outputReceived] per chunk of standard error in the order of arrival,
    and the signals of the end: the bytes of standard output go to the
    file and are never forwarded as output. *)
Theorem gzip_branch_signals (h : Host) (u : Unarchiver) (w : World)
    (sc : SourceAndCommand) (outs : list ProcessEvent) (r : ProcessResult) :
  m_process u = None ->
  m_sourceAndCommand u = Some sc ->
  isEmpty (m_destDir u) = false ->
  fileName (executable (m_commandTemplate sc)) = "gzip" ->
  canOpenWriteOnly (outputPath u) (snd (ensureWritableDir (m_destDir u) w)) = true ->
  forallb (fun ev => negb (isProcessDone ev)) outs = true ->
  takesAll w (outputPath u) ->
  let command :=
    unarchiveCommand (m_commandTemplate sc) (m_sourceFile sc) (m_destDir u) in
  effectsOf (extraction h u w (lifeOf outs r))
  = [Emit (outputReceived (msgRunning h command (m_destDir u)));
     Spawn command (m_destDir u)]
    ++ gzipForwarded outs ++ finalSignals r.
Proof.
  intros Hidle Hsc Hdest Hgzip Hopens Houts Htakes command.
  destruct (gzip_done_facts h u w sc Hidle Hsc Hdest Hgzip Hopens outs r Houts)
    as [_ Hout].
  rewrite Hout. fold (finalSignals r).
  rewrite (extraction_gzip h u w sc Hidle Hsc Hdest Hgzip Hopens).
  cbn [effectsOf snd]. fold command.
  rewrite (deliverAll_gzip_forwarded (mkQFile (outputPath u) true) outs eq_refl Houts).
  - now rewrite <- app_assoc.
  - reflexivity.
  - intros cur data. cbn [setFiles deviceWrite qfileName].
    rewrite ensureWritableDir_deviceWrite. apply Htakes.
Qed.

Lemma gzip_branch_signals_witness :
  effectsOf (extraction Sample.bareHost (Sample.gzipUnarchiver "/out") Sample.world0
                        (lifeOf [readyReadStandardOutput [x61; x62]%byte;
                                 readyReadStandardError [x21]%byte]
                                FinishedWithError))
  = [Emit (outputReceived
             (msgRunning Sample.bareHost
                (mkCommandLine "/usr/bin/gzip" ["-d"; "/tmp/data.gz"; "-c"]) "/out"));
     Spawn (mkCommandLine "/usr/bin/gzip" ["-d"; "/tmp/data.gz"; "-c"]) "/out";
     Emit (outputReceived "!");
     Emit (outputReceived "Command failed.");
     Emit (done Error)].
Proof.
  apply (gzip_branch_signals Sample.bareHost (Sample.gzipUnarchiver "/out") Sample.world0
           (mkSourceAndCommand "/tmp/data.gz"
              (mkCommandLine "/usr/bin/gzip" ["-d"; "%{src}"; "-c"]))
           [readyReadStandardOutput [x61; x62]%byte; readyReadStandardError [x21]%byte]
           FinishedWithError
           eq_refl eq_refl eq_refl eq_refl eq_refl eq_refl).
  intros cur data. reflexivity.
Defined.

(** ** Executor: the end of the process *)

(** X14. Whatever a spawned process delivered before, and in either
    branch, its end adds [done(Success)] alone when it finished with
    success, and "Command failed." followed by [done(Error)] otherwise:
    the last signal always carries the verdict of the process. *)
Theorem extraction_ends_with_verdict (h : Host) (u : Unarchiver) (w : World)
    (outs : list ProcessEvent) (r : ProcessResult) :
  existsb isSpawn (effectsOf (start h u w)) = true ->
  forallb (fun ev => negb (isProcessDone ev)) outs = true ->
  effectsOf (extraction h u w (lifeOf outs r))
  = effectsOf (extraction h u w outs) ++ finalSignals r.
Proof.
  intros Hspawn Houts.
  apply start_spawned_inv in Hspawn
    as (Hidle & sc & Hsc & Hdest & [[Hgzip Hopens]|Harchive]).
  - now destruct (gzip_done_facts h u w sc Hidle Hsc Hdest Hgzip Hopens outs r Houts).
  - destruct (extraction_archive h u w sc outs Hidle Hsc Hdest Harchive Houts)
      as [_ Hend].
    now destruct (Hend r).
Qed.

Lemma extraction_ends_with_verdict_witness :
  effectsOf (extraction Sample.bareHost (Sample.gzipUnarchiver "/out") (Sample.smallDisk 1)
                        (lifeOf [readyReadStandardOutput [x61; x62]%byte] Hang))
  = effectsOf (extraction Sample.bareHost (Sample.gzipUnarchiver "/out")
                          (Sample.smallDisk 1)
                          [readyReadStandardOutput [x61; x62]%byte])
    ++ [Emit (outputReceived "Command failed."); Emit (done Error)].
Proof.
  exact (extraction_ends_with_verdict Sample.bareHost (Sample.gzipUnarchiver "/out")
           (Sample.smallDisk 1) [readyReadStandardOutput [x61; x62]%byte] Hang
           eq_refl eq_refl).
Defined.

(** ** Resolver: cmake in front of tar *)

Lemma firstResolved_prefix (h : Host) (p : Tool -> bool) (l1 l2 : list Tool) :
  Exists (fun t => p t = true /\ resolveTool h t <> None) l1 ->
  exists t r,
    In t l1 /\ p t = true /\ resolveTool h t = Some r
    /\ firstResolved h (List.filter p (l1 ++ l2)) = Some r.
Proof.
  intros Hex. apply firstResolved_filter_Exists in Hex as [r Hr].
  pose proof Hr as Hsplit.
  apply firstResolved_filter in Hsplit as (a & t & b & Hl & _ & Hp & Hres).
  exists t, r. split.
  - rewrite Hl. apply List.in_or_app. right. now left.
  - split; [exact Hp|]. split; [exact Hres|].
    now rewrite List.filter_app, firstResolved_app, Hr.
Qed.

Lemma sTools_cmake_split (h : Host) :
  exists front back,
    sTools h = front ++ back
    /\ (forall t, In t front -> executable (command t) <> "tar"
                                /\ executable (command t) <> "gzip")
    /\ (forall t, In t (sTools h) -> executable (command t) = "cmake" -> In t front).
Proof.
  exists ((if isWindowsHost h then [powershellTool] else [])
          ++ [ mkTool (mkCommandLine "unzip" ["-o"; "%{src}"; "-d"; "%{dest}"])
                      ["application/zip"] [];
               mkTool (mkCommandLine "7z" ["x"; "-o%{dest}"; "-y"; "-bb"; "%{src}"])
                      ["application/zip"; "application/x-7z-compressed"]
                      (additionalInstallDirs h "HKEY_CURRENT_USER\Software\7-Zip" "Path");
               mkTool (mkCommandLine "cmake" ["-E"; "tar"; "xvf"; "%{src}"])
                      ["application/zip"; "application/x-tar"; "application/x-7z-compressed"]
                      (additionalCMakeDirs h);
               mkTool (mkCommandLine "cmake" ["-E"; "tar"; "xvzf"; "%{src}"])
                      ["application/x-compressed-tar"] (additionalCMakeDirs h);
               mkTool (mkCommandLine "cmake" ["-E"; "tar"; "xvJf"; "%{src}"])
                      ["application/x-xz-compressed-tar"] (additionalCMakeDirs h);
               mkTool (mkCommandLine "cmake" ["-E"; "tar"; "xvjf"; "%{src}"])
                      ["application/x-bzip-compressed-tar"] (additionalCMakeDirs h) ]),
         [ mkTool (mkCommandLine "tar" ["xvf"; "%{src}"])
                  ["application/zip"; "application/x-tar"; "application/x-7z-compressed"] [];
           mkTool (mkCommandLine "tar" ["xvzf"; "%{src}"]) ["application/x-compressed-tar"] [];
           mkTool (mkCommandLine "tar" ["xvJf"; "%{src}"])
                  ["application/x-xz-compressed-tar"] [];
           mkTool (mkCommandLine "tar" ["xvjf"; "%{src}"])
                  ["application/x-bzip-compressed-tar"] [];
           gzipTool ].
  split; [|split].
  - unfold sTools, archiveTools. now rewrite <- !app_assoc.
  - intros t Hin. apply List.in_app_or in Hin as [Hin|Hin].
    + destruct (isWindowsHost h); simpl in Hin; [|tauto].
      destruct Hin as [<-|[]]. split; discriminate.
    + simpl in Hin.
      repeat (destruct Hin as [<-|Hin]; [split; discriminate|]). destruct Hin.
  - unfold sTools, archiveTools. intros t Hin Hcmake.
    apply List.in_app_or in Hin as [Hin|[<-|[]]]; [|discriminate].
    apply List.in_app_or in Hin as [Hin|Hin].
    + apply List.in_or_app. now left.
    + apply List.in_or_app. right. simpl in Hin. simpl.
      repeat (destruct Hin as [<-|Hin]; [first [discriminate Hcmake | tauto]|]).
      destruct Hin.
Qed.

(** X15. cmake is ranked in front of tar: whenever a cmake entry of the
    catalog supports the detected MIME type and resolves, the command
    returned belongs to an entry that is neither tar nor gzip. *)
Theorem cmake_before_tar (h : Host) (sourceFile : FilePath) :
  Exists (fun t => executable (command t) = "cmake"
                   /\ supportsMimeType (mimeTypeForFile h sourceFile) t = true
                   /\ resolveTool h t <> None) (sTools h) ->
  exists t r,
    In t (sTools h)
    /\ executable (command t) <> "tar"
    /\ executable (command t) <> "gzip"
    /\ supportsMimeType (mimeTypeForFile h sourceFile) t = true
    /\ resolveTool h t = Some r
    /\ sourceAndCommand h sourceFile = inr (mkSourceAndCommand sourceFile (command r)).
Proof.
  intros Hex. destruct (sTools_cmake_split h) as (front & back & Hsplit & Hfront & Hcmake).
  assert (Hex' : Exists (fun t => supportsMimeType (mimeTypeForFile h sourceFile) t = true
                                  /\ resolveTool h t <> None) front).
  { apply List.Exists_exists in Hex as (t & Hin & Hc & Hp & Hres).
    apply List.Exists_exists. exists t. auto. }
  destruct (firstResolved_prefix h _ front back Hex') as (t & r & Hin & Hp & Hres & Hfirst).
  destruct (Hfront t Hin) as [Htar Hgzip].
  exists t, r. split.
  - rewrite Hsplit. apply List.in_or_app. now left.
  - repeat split; auto.
    apply sourceAndCommand_inr. exists r. split; [|reflexivity].
    unfold toolsForFilePath, toolsForMimeType. now rewrite Hsplit.
Qed.

Lemma cmake_before_tar_witness :
  sourceAndCommand
    (Sample.unixHost [("tar", "/usr/bin/tar"); ("cmake", "/usr/bin/cmake")]) "src.tar"
  = inr (mkSourceAndCommand "src.tar"
           (mkCommandLine "/usr/bin/cmake" ["-E"; "tar"; "xvf"; "%{src}"])).
Proof.
  destruct (cmake_before_tar
              (Sample.unixHost [("tar", "/usr/bin/tar"); ("cmake", "/usr/bin/cmake")])
              "src.tar") as (t & r & _ & _ & _ & _ & _ & Hres).
  - apply List.Exists_exists.
    exists (mkTool (mkCommandLine "cmake" ["-E"; "tar"; "xvf"; "%{src}"])
                   ["application/zip"; "application/x-tar"; "application/x-7z-compressed"]
                   []).
    split; [simpl; tauto|]. split; [reflexivity|]. split; [reflexivity|discriminate].
  - reflexivity.
Defined.

Lemma unarchiveCommand_passthrough_witness :
  nth_error
    (splitArguments
       (unarchiveCommand (mkCommandLine "unzip" ["-o"; "%{src}"; "-d"; "%{dest}"])
                         "/tmp/%{dest}.zip" "/out/%{src}")) 2
  = Some "-d".
Proof.
  exact (proj2 (proj2
    (unarchiveCommand_passthrough
       (mkCommandLine "unzip" ["-o"; "%{src}"; "-d"; "%{dest}"])
       "/tmp/%{dest}.zip" "/out/%{src}")) 2 "-d" eq_refl eq_refl).
Defined.
